(** * Quiz Vocacional Juridico: scoring, persistence and dashboard

    A shallow embedding of [src/quizvocacional/app.py].  Python [int] is
    [Z], Python [str] is [string] (the UTF-8 bytes of the literal), [None]
    is the [None] of an [option], a [dict] is an association list kept in
    insertion order, and an exception is the [Raise] branch of [result]. *)

From Stdlib Require Import ZArith List String Ascii Bool Lia.
From Stdlib Require Import Floats.SpecFloat.
From Stdlib Require Import Sorting.Permutation Sorting.Sorted.
Import ListNotations.
Open Scope string_scope.
Open Scope list_scope.
Open Scope Z_scope.

(** ** Exceptions and results *)

(** The exceptions that matter to the program.  [ValueError],
    [ZeroDivisionError], [KeyError], [AttributeError],
    [FileNotFoundError] and [UnicodeEncodeError] are the Python
    built-ins, [EmptyDataError] is raised by pandas and
    [DuplicateWidgetID] by Streamlit (recent releases name it
    [StreamlitDuplicateElementKey]), [Exception] stands for any other
    failure of an external call.  [ConfigurationError] and
    [ValidationError] are the names of the specification's error taxonomy;
    no statement of [app.py] constructs them. *)
Inductive exn : Type :=
| ValueError
| ZeroDivisionError
| KeyError
| AttributeError
| FileNotFoundError
| Exception
| ConfigurationError
| ValidationError
| UnicodeEncodeError
| EmptyDataError
| DuplicateWidgetID.

Inductive result (A : Type) : Type :=
| Ok (a : A)
| Raise (e : exn).
Arguments Ok {A} a.
Arguments Raise {A} e.

Definition rbind {A B} (r : result A) (k : A -> result B) : result B :=
  match r with
  | Ok a => k a
  | Raise e => Raise e
  end.

(** [try: body / except Exception: handler]. *)
Definition try_except {A} (body : result A) (handler : result A) : result A :=
  match body with
  | Ok a => Ok a
  | Raise _ => handler
  end.

Declare Scope result_scope.
Delimit Scope result_scope with result.
Notation "x <- r ;; k" := (rbind r (fun x => k))
  (at level 61, r at next level, right associativity) : result_scope.

(** ** Dictionaries in insertion order *)

Module PyDict.

Definition dict (V : Type) : Type := list (string * V).

Section Ops.
Context {V : Type}.

(** [d.get(k)]: the value of the first entry under [k]. *)
Fixpoint get (d : dict V) (k : string) : option V :=
  match d with
  | [] => None
  | (k', v) :: r => if String.eqb k' k then Some v else get r k
  end.

(** [k in d]. *)
Definition contains (d : dict V) (k : string) : bool :=
  match get d k with
  | Some _ => true
  | None => false
  end.

(** [d.get(k, default)]. *)
Definition get_default (d : dict V) (k : string) (default : V) : V :=
  match get d k with
  | Some v => v
  | None => default
  end.

(** [d[k] = v]: an existing key keeps its position, a new key goes
    last. *)
Fixpoint set (d : dict V) (k : string) (v : V) : dict V :=
  match d with
  | [] => [(k, v)]
  | (k', v') :: r =>
      if String.eqb k' k then (k, v) :: r else (k', v') :: set r k v
  end.

Definition keys (d : dict V) : list string := map fst d.
Definition values (d : dict V) : list V := map snd d.
Definition items (d : dict V) : list (string * V) := d.
End Ops.

End PyDict.
Import PyDict.

(** ** The category registry *)

Definition CARREIRAS : dict string :=
  [ ("advocacia", "Advocacia");
    ("magistratura", "Magistratura");
    ("ministerio_publico", "Ministério Público");
    ("consultoria", "Consultoria Jurídica") ].

(** ** The scorer *)

(** [sum(d.values())]. *)
Definition py_sum (l : list Z) : Z := fold_right Z.add 0 l.

(** The running maximum of [max(iterable, key=...)]: a later element
    replaces the current one only when its key is strictly greater. *)
Fixpoint max_desde (melhor : string * Z) (resto : list (string * Z))
  : string * Z :=
  match resto with
  | [] => melhor
  | kv :: r =>
      if snd melhor <? snd kv then max_desde kv r else max_desde melhor r
  end.

(** [max(resultados, key=resultados.get)]: iterates the keys in insertion
    order, each key ranked by its own count; [ValueError] on an empty
    dictionary. *)
Definition py_max_key (resultados : dict Z) : result string :=
  match items resultados with
  | [] => Raise ValueError
  | kv :: r => Ok (fst (max_desde kv r))
  end.

(** An answer set: question id and the selected category code, [None]
    when nothing is selected. *)
Definition respostas : Type := list (Z * option string).

Section Scorer.
(** The registry read by the scorer; [app.py] binds it to the module
    constant [CARREIRAS]. *)
Variable carreiras : dict string.

(** [{c: 0 for c in CARREIRAS.keys()}]. *)
Definition zerar : dict Z :=
  fold_left (fun d c => set d c 0) (keys carreiras) [].

(** One iteration of the loop over [respostas_usuario.values()]. *)
Definition contar (resultados : dict Z) (carreira : option string) : dict Z :=
  match carreira with
  | None => resultados
  | Some c =>
      match get resultados c with
      | Some n => set resultados c (n + 1)
      | None => resultados
      end
  end.

Definition calcular_resultados_em (respostas_usuario : respostas)
  : result (dict Z * string) :=
  let resultados := fold_left contar (map snd respostas_usuario) zerar in
  (carreira_final <- py_max_key resultados ;;
   Ok (resultados, carreira_final))%result.
End Scorer.

Definition calcular_resultados : respostas -> result (dict Z * string) :=
  calcular_resultados_em CARREIRAS.

(** ** Floating point

    A Python [float] and a pandas [float64] are IEEE 754 binary64 values,
    here [spec_float] with 53 bits of precision. *)

Definition prec : Z := 53.
Definition emax : Z := 1024.

(** Conversion of an integer, rounding to nearest even. *)
Definition float_of_int (z : Z) : spec_float := binary_normalize prec emax z 0 false.

Definition fdiv : spec_float -> spec_float -> spec_float := SFdiv prec emax.
Definition fmul : spec_float -> spec_float -> spec_float := SFmul prec emax.

(** [a / b] on two Python integers: [ZeroDivisionError] for a zero
    divisor, otherwise the quotient of the two operands as floats (what
    CPython computes when both are below 2^53 in magnitude, as tallies
    are). *)
Definition py_truediv (a b : Z) : result spec_float :=
  if b =? 0 then Raise ZeroDivisionError
  else Ok (fdiv (float_of_int a) (float_of_int b)).

(** [x or 1] on an integer. *)
Definition or_1 (x : Z) : Z := if x =? 0 then 1 else x.

(** [pontos / total * 100]. *)
Definition percentual (pontos total : Z) : result spec_float :=
  (q <- py_truediv pontos total ;; Ok (fmul q (float_of_int 100)))%result.

(** ** Data frames and the result file *)

(** A cell of a pandas frame: text, an integer ([int64] in pandas), a
    float, or the missing value NaN. *)
Inductive cell : Type :=
| CStr (s : string)
| CInt (z : Z)
| CFloat (f : spec_float)
| CNaN.

(** A frame is its rows, each row a dictionary from column name to cell.
    Every frame the program builds has the columns of [linha] below.  The
    frame without rows is the frame without columns; a frame that has
    columns and no rows is not represented. *)
Definition DataFrame : Type := list (dict cell).

(** A field of the CSV file after the quoting of the format is undone:
    text, or a numeral; [FFloat x] is the text that [to_csv] writes for
    the float [x].  A file is its data rows, each field under the
    name its header gives it; the file without rows is the file without
    content, and a file that holds a header only is not represented. *)
Inductive campo : Type :=
| FTexto (s : string)
| FInt (z : Z)
| FFloat (f : spec_float).

Definition csv_file : Type := list (dict campo).

(** [DataFrame.to_csv]: text is written as it is, the missing value as
    the empty field. *)
Definition escrever_campo (c : cell) : campo :=
  match c with
  | CStr s => FTexto s
  | CInt z => FInt z
  | CFloat f => FFloat f
  | CNaN => FTexto ""
  end.

(** What the model leaves open of pandas: the float that [read_csv]
    parses from the text that [to_csv] writes for a float.  The default
    parser of [read_csv] is not the round-trip one, so the model does not
    take it to be the float that was written. *)
Record pandas : Type := mk_pandas {
  float_lido : spec_float -> spec_float
}.

(** [pandas.read_csv] with its default options: the empty field is the
    missing value, a whole number is read as it was written, a float as
    the parser of [pd] reads its text.  Text that spells a number, a
    truth value or another of pandas' missing-value tokens is outside
    this model, which is faithful for the fields the program writes for
    a timestamp and a category code and for the names singled out by
    [nome_simples] below. *)
Definition ler_campo (pd : pandas) (f : campo) : cell :=
  match f with
  | FTexto "" => CNaN
  | FTexto s => CStr s
  | FInt z => CInt z
  | FFloat x => CFloat (float_lido pd x)
  end.

Definition map_row {A B} (f : A -> B) (r : dict A) : dict B :=
  map (fun kv => (fst kv, f (snd kv))) r.

Definition to_csv (df : DataFrame) : csv_file := map (map_row escrever_campo) df.

(** [pd.read_csv("resultados.csv")] on the file system state: [None] is
    the absent file, which raises [FileNotFoundError]; a file without
    content raises [EmptyDataError]. *)
Definition read_csv (pd : pandas) (arquivo : option csv_file) : result DataFrame :=
  match arquivo with
  | None => Raise FileNotFoundError
  | Some [] => Raise EmptyDataError
  | Some linhas => Ok (map (map_row (ler_campo pd)) linhas)
  end.

(** [pd.concat([a, b], ignore_index=True)] for frames over the same
    columns, the only case the statements below rely on: with different
    columns pandas takes their union and fills the gaps with NaN. *)
Definition concat (a b : DataFrame) : DataFrame := a ++ b.

(** The cells of a column, row by row. *)
Fixpoint celulas (df : DataFrame) (nome_coluna : string) : result (list cell) :=
  match df with
  | [] => Ok []
  | linha :: resto =>
      match get linha nome_coluna with
      | None => Raise KeyError
      | Some c => (cs <- celulas resto nome_coluna ;; Ok (c :: cs))%result
      end
  end.

(** [df[coluna]]: [KeyError] when the frame has no such column, as the
    frame without columns has none. *)
Definition coluna (df : DataFrame) (nome_coluna : string) : result (list cell) :=
  match df with
  | [] => Raise KeyError
  | _ :: _ => celulas df nome_coluna
  end.

(** ** The world: the result file and the screen *)

(** The lines of the report that carry data; a score line carries the
    percentage that it prints with one decimal. *)
Inductive pdf_item : Type :=
| PdfParticipante (nome : string)
| PdfData (agora : string)
| PdfCarreira (carreira_nome : string)
| PdfPontuacao (nome_c : string) (pontos : Z) (perc : spec_float)
| PdfDescricao (texto : string).

(** A row of the dashboard's distribution table [dist]. *)
Record dist_row : Type := mk_dist {
  carreira : cell;
  qtd : Z;
  Carreira : option string;
  Percentual : spec_float
}.

(** The Streamlit calls that carry a message or data; fixed headings and
    the column layout are not recorded. *)
Inductive st_event : Type :=
| st_error (msg : string)
| st_success (carreira_nome : string)
| st_bar_pontos (barras : list (string * Z))
| st_write_pontos (nome_c : string) (pontos : Z) (perc : spec_float)
| st_write_texto (texto : string)
| st_download_button (pdf : list pdf_item)
| st_info (msg : string)
| st_write_total (n : nat)
| st_bar_dist (dist : list dist_row)
| st_write_percentual (nome_c : option string) (perc : spec_float)
| st_dataframe (df : DataFrame).

Record mundo : Type := mk_mundo {
  resultados_csv : option csv_file;
  tela : list st_event
}.

(** A statement of the program: it may change the world and, as in
    Python, what it changed stays changed when it raises. *)
Definition app (A : Type) : Type := mundo -> result A * mundo.

Definition ret {A} (a : A) : app A := fun w => (Ok a, w).

Definition bind {A B} (m : app A) (k : A -> app B) : app B :=
  fun w =>
    match m w with
    | (Ok a, w') => k a w'
    | (Raise e, w') => (Raise e, w')
    end.

Definition lift {A} (r : result A) : app A := fun w => (r, w).

(** [try: body / except FileNotFoundError: handler]. *)
Definition except_FileNotFoundError {A} (body handler : app A) : app A :=
  fun w =>
    match body w with
    | (Raise FileNotFoundError, w') => handler w'
    | other => other
    end.

Definition st (e : st_event) : app unit :=
  fun w => (Ok tt, mk_mundo (resultados_csv w) (tela w ++ [e])).

Definition ler_resultados (pd : pandas) : app DataFrame :=
  fun w => (read_csv pd (resultados_csv w), w).

Definition gravar_resultados (df : DataFrame) : app unit :=
  fun w => (Ok tt, mk_mundo (Some (to_csv df)) (tela w)).

Declare Scope app_scope.
Delimit Scope app_scope with app.
Notation "x <- m ;; k" := (bind m (fun x => k))
  (at level 61, m at next level, right associativity) : app_scope.
Notation "m ;; k" := (bind m (fun _ => k))
  (at level 61, right associativity) : app_scope.

(** [for x in xs: corpo(x)]. *)
Fixpoint for_each {A} (xs : list A) (corpo : A -> app unit) : app unit :=
  match xs with
  | [] => ret tt
  | x :: r => (corpo x ;; for_each r corpo)%app
  end.

(** [d[k]]: [KeyError] on a missing key. *)
Definition getitem {V} (d : dict V) (k : string) : result V :=
  match get d k with
  | Some v => Ok v
  | None => Raise KeyError
  end.

(** ** Static descriptions *)

Definition DESCRICOES_BASE : dict string :=
  [ ("advocacia",
     ("A Advocacia envolve a defesa direta de interesses de clientes, atuação em audiências, "
      ++ "negociação de acordos e elaboração de peças processuais. É uma carreira dinâmica, "
      ++ "com forte componente de argumentação, persuasão e contato próximo com pessoas físicas "
      ++ "e jurídicas.")%string);
    ("magistratura",
     ("A Magistratura é marcada pela imparcialidade, pelo compromisso com a aplicação correta "
      ++ "do Direito e pela responsabilidade de decidir casos que impactam diretamente a vida das pessoas. "
      ++ "Exige profundo conhecimento jurídico, postura ética e serenidade para lidar com conflitos complexos.")%string);
    ("ministerio_publico",
     ("O Ministério Público atua na defesa da ordem jurídica, do regime democrático e dos interesses "
      ++ "sociais e individuais indisponíveis. Envolve combate à criminalidade, promoção de ações civis "
      ++ "públicas, fiscalização do poder público e proteção de direitos coletivos.")%string);
    ("consultoria",
     ("A Consultoria Jurídica concentra-se na prevenção de conflitos, elaboração de contratos, pareceres "
      ++ "e estratégias jurídicas para empresas e organizações. Foca em análise técnica, visão de risco, "
      ++ "compliance e planejamento de médio e longo prazo.")%string) ].

(** ** Persisting one result *)

(** The loop of [salvar_resultado_csv] that adds the two columns of each
    category to [linha]. *)
Fixpoint preencher (total : Z) (itens : list (string * Z)) (linha : dict cell)
  : result (dict cell) :=
  match itens with
  | [] => Ok linha
  | (codigo, pontos) :: r =>
      let linha := set linha ("pontos_" ++ codigo)%string (CInt pontos) in
      (perc <- percentual pontos total ;;
       preencher total r (set linha ("perc_" ++ codigo)%string (CFloat perc)))%result
  end.

(** The dictionary [linha]; [agora] is [datetime.now().isoformat()]. *)
Definition linha_de (agora nome : string) (resultados : dict Z)
  (carreira_final : string) : result (dict cell) :=
  let total := or_1 (py_sum (values resultados)) in
  let linha :=
    [ ("timestamp", CStr agora);
      ("nome", CStr (if String.eqb nome "" then "" else nome));
      ("carreira_final", CStr carreira_final) ] in
  preencher total (items resultados) linha.

Definition salvar_resultado_csv (pd : pandas) (agora nome : string) (resultados : dict Z)
  (carreira_final : string) : app unit :=
  (linha <- lift (linha_de agora nome resultados carreira_final) ;;
   let nova_linha : DataFrame := [linha] in
   df <- except_FileNotFoundError
           (existente <- ler_resultados pd ;; ret (concat existente nova_linha))
           (ret nova_linha) ;;
   gravar_resultados df)%app.

(** ** The report *)

(** The score lines of the report. *)
Fixpoint pontuacoes (total : Z) (itens : list (string * Z)) : result (list pdf_item) :=
  match itens with
  | [] => Ok []
  | (codigo, pontos) :: r =>
      let nome_c := get_default CARREIRAS codigo codigo in
      (perc <- percentual pontos total ;;
       resto <- pontuacoes total r ;;
       Ok (PdfPontuacao nome_c pontos perc :: resto))%result
  end.

(** The text can be encoded in latin-1: each of its characters is below
    U+0100, that is, in UTF-8 either one byte below 128 or the lead byte
    194 or 195 with its continuation byte. *)
Fixpoint latin1 (s : string) : bool :=
  match s with
  | EmptyString => true
  | String c r =>
      if (N_of_ascii c <? 128)%N then latin1 r
      else if ((N_of_ascii c =? 194) || (N_of_ascii c =? 195))%N then
        match r with
        | String c2 r2 =>
            ((128 <=? N_of_ascii c2) && (N_of_ascii c2 <? 192))%N && latin1 r2
        | EmptyString => false
        end
      else false
  end.

Definition item_latin1 (i : pdf_item) : bool :=
  match i with
  | PdfParticipante nome => latin1 nome
  | PdfData agora => latin1 agora
  | PdfCarreira carreira_nome => latin1 carreira_nome
  | PdfPontuacao nome_c _ _ => latin1 nome_c
  | PdfDescricao texto => latin1 texto
  end.

(** The content of the report, in page order; [agora] is the formatted
    date.  Fixed headings, fonts and page layout are not recorded. *)
Definition conteudo_do_relatorio (agora nome : string) (resultados : dict Z)
  (carreira_final texto_descricao : string) : result (list pdf_item) :=
  let cabecalho :=
    (if String.eqb nome "" then [] else [PdfParticipante nome])
    ++ [PdfData agora;
        PdfCarreira (get_default CARREIRAS carreira_final carreira_final)] in
  let total := or_1 (py_sum (values resultados)) in
  (linhas <- pontuacoes total (items resultados) ;;
   Ok (cabecalho ++ linhas ++ [PdfDescricao texto_descricao]))%result.

(** The report.  Its last statement encodes the document in latin-1,
    which raises [UnicodeEncodeError] when a text written into it has a
    character outside latin-1. *)
Definition gerar_pdf_relatorio (agora nome : string) (resultados : dict Z)
  (carreira_final texto_descricao : string) : result (list pdf_item) :=
  (doc <- conteudo_do_relatorio agora nome resultados carreira_final
            texto_descricao ;;
   if forallb item_latin1 doc then Ok doc else Raise UnicodeEncodeError)%result.

(** ** Enrichment through the text-generation service *)

(** What an attribute of a response object may hold. *)
Inductive pyval : Type :=
| PyNone
| PyStr (s : string)
| PyObj (verdadeiro : bool).   (* some other object, with its truth value *)

(** A response object: its [text] attribute when it has one, and the
    outcome of [str(...)] on it. *)
Record resposta : Type := mk_resposta {
  text : option pyval;
  str_de : result string
}.

(** Everything [get_gemini_descricao] reads from outside the program. *)
Record ambiente : Type := mk_ambiente {
  GEMINI_LIB_DISPONIVEL : bool;
  secrets_get : result (option string);      (* st.secrets.get("GEMINI_API_KEY") *)
  environ_get : option string;               (* os.environ.get("GEMINI_API_KEY") *)
  genai_configure : string -> result unit;
  genai_Client : result unit;
  generate_content : string -> result resposta;
  generate_text : string -> result resposta
}.

Definition truthy (v : pyval) : bool :=
  match v with
  | PyNone => false
  | PyStr s => negb (String.eqb s "")
  | PyObj b => b
  end.

Definition truthy_key (k : option string) : bool :=
  match k with
  | None => false
  | Some s => negb (String.eqb s "")
  end.

(** [getattr(r, "text", None)]. *)
Definition getattr_text (r : resposta) : pyval :=
  match text r with
  | Some v => v
  | None => PyNone
  end.

(** ASCII white space as [str.strip] sees it. *)
Definition is_space (c : ascii) : bool :=
  let n := N_of_ascii c in
  ((9 <=? n) && (n <=? 13) || (28 <=? n) && (n <=? 32))%N.

Fixpoint lstrip (s : string) : string :=
  match s with
  | EmptyString => EmptyString
  | String c r => if is_space c then lstrip r else s
  end.

Fixpoint rstrip (s : string) : string :=
  match s with
  | EmptyString => EmptyString
  | String c r =>
      match rstrip r with
      | EmptyString => if is_space c then EmptyString else String c EmptyString
      | r' => String c r'
      end
  end.

Definition strip (s : string) : string := rstrip (lstrip s).

(** [texto.strip()]: only a string has the method. *)
Definition py_strip (v : pyval) : result string :=
  match v with
  | PyStr s => Ok (strip s)
  | _ => Raise AttributeError
  end.

(** [if texto: return texto.strip()] inside a [try]: [Some] is the value
    returned, [None] means the statement fell through. *)
Definition devolver_se_texto (texto : pyval) : result (option string) :=
  if truthy texto then (s <- py_strip texto ;; Ok (Some s))%result else Ok None.

Definition montar_prompt (carreira_nome descricao_base : string) : string :=
  ("Você é um orientador vocacional jurídico. Explique de forma clara e objetiva a carreira de "
   ++ carreira_nome
   ++ " para um estudante de Direito. Use linguagem acessível, em tom encorajador. "
   ++ "Base: " ++ descricao_base ++ " "
   ++ "Estruture em: visão geral; principais atividades; habilidades importantes; perfil ideal; desafios.")%string.

(** The key: [st.secrets] first, any failure there counting as no key,
    then the environment. *)
Definition obter_api_key (amb : ambiente) : option string :=
  let api_key :=
    match secrets_get amb with
    | Ok k => k
    | Raise _ => None
    end in
  if truthy_key api_key then api_key else environ_get amb.

Definition get_gemini_descricao (amb : ambiente) (carreira_codigo : string)
  : result string :=
  let descricao_base := get_default DESCRICOES_BASE carreira_codigo "" in
  if negb (GEMINI_LIB_DISPONIVEL amb) then Ok descricao_base
  else
    match obter_api_key amb with
    | Some chave =>
        if String.eqb chave "" then Ok descricao_base
        else
          (_ <- try_except (genai_configure amb chave) (Ok tt) ;;
           let carreira_nome := get_default CARREIRAS carreira_codigo carreira_codigo in
           let prompt := montar_prompt carreira_nome descricao_base in
           try_except
             (let client :=
                match genai_Client amb with
                | Ok c => Some c
                | Raise _ => None
                end in
              primeira <-
                match client with
                | Some _ =>
                    try_except
                      (r <- generate_content amb prompt ;;
                       devolver_se_texto (getattr_text r))
                      (Ok None)
                | None => Ok None
                end ;;
              match primeira with
              | Some texto => Ok texto
              | None =>
                  segunda <-
                    try_except
                      (res <- generate_text amb prompt ;;
                       texto <- (if truthy (getattr_text res)
                                 then Ok (getattr_text res)
                                 else (s <- str_de res ;; Ok (PyStr s))) ;;
                       devolver_se_texto texto)
                      (Ok None) ;;
                  match segunda with
                  | Some texto => Ok texto
                  | None => Ok descricao_base
                  end
              end)
             (Ok descricao_base))%result
    | None => Ok descricao_base
    end.

(** ** The quiz tab *)

Definition is_none {A} (v : option A) : bool :=
  match v with
  | None => true
  | Some _ => false
  end.

Definition msg_validacao : string :=
  "Por favor, responda todas as perguntas antes de enviar.".

Definition msg_salvo : string :=
  "Seu resultado foi salvo anonimamente para compor as estatísticas gerais do dashboard.".

(** [[CARREIRAS[c] for c in resultados.keys()]] zipped with
    [list(resultados.values())]. *)
Fixpoint barras_de (itens : list (string * Z)) : result (list (string * Z)) :=
  match itens with
  | [] => Ok []
  | (c, pontos) :: r =>
      (nome_c <- getitem CARREIRAS c ;;
       resto <- barras_de r ;;
       Ok ((nome_c, pontos) :: resto))%result
  end.

(** The code under [if submitted:].  [agora_iso] and [agora_fmt] are the
    two readings of the clock, [nome] the text of the name box and
    [respostas_usuario] the selections collected by the form. *)
Definition aba_quiz (pd : pandas) (amb : ambiente) (agora_iso agora_fmt : string)
  (submitted : bool) (nome : string) (respostas_usuario : respostas) : app unit :=
  if submitted then
    if existsb is_none (map snd respostas_usuario) then
      st (st_error msg_validacao)
    else
      (rc <- lift (calcular_resultados respostas_usuario) ;;
       let resultados := fst rc in
       let carreira_final := snd rc in
       carreira_nome <- lift (getitem CARREIRAS carreira_final) ;;
       st (st_success carreira_nome) ;;
       barras <- lift (barras_de (items resultados)) ;;
       st (st_bar_pontos barras) ;;
       let total := or_1 (py_sum (values resultados)) in
       for_each (items resultados) (fun cp =>
         nome_c <- lift (getitem CARREIRAS (fst cp)) ;;
         perc <- lift (percentual (snd cp) total) ;;
         st (st_write_pontos nome_c (snd cp) perc)) ;;
       descricao_carreira <- lift (get_gemini_descricao amb carreira_final) ;;
       st (st_write_texto descricao_carreira) ;;
       salvar_resultado_csv pd agora_iso nome resultados carreira_final ;;
       pdf_bytes <- lift (gerar_pdf_relatorio agora_fmt nome resultados
                            carreira_final descricao_carreira) ;;
       st (st_download_button pdf_bytes) ;;
       st (st_info msg_salvo))%app
  else ret tt.

(** ** The dashboard tab *)

Definition cell_eqb (a b : cell) : bool :=
  match a, b with
  | CStr x, CStr y => String.eqb x y
  | CInt x, CInt y => Z.eqb x y
  | CFloat x, CFloat y => SFeqb x y
  | _, _ => false
  end.

(** One more occurrence of [x] in a tally kept in order of first
    appearance. *)
Fixpoint incrementar (vistos : list (cell * Z)) (x : cell) : list (cell * Z) :=
  match vistos with
  | [] => [(x, 1)]
  | (y, n) :: r =>
      if cell_eqb y x then (y, n + 1) :: r else (y, n) :: incrementar r x
  end.

Definition contar_valor (vistos : list (cell * Z)) (x : cell) : list (cell * Z) :=
  match x with
  | CNaN => vistos
  | _ => incrementar vistos x
  end.

(** Insertion that keeps counts in descending order, the new entry ahead
    of entries with an equal count. *)
Fixpoint inserir_desc (kv : cell * Z) (l : list (cell * Z)) : list (cell * Z) :=
  match l with
  | [] => [kv]
  | h :: t => if snd kv <? snd h then h :: inserir_desc kv t else kv :: h :: t
  end.

(** [Series.value_counts()]: missing values dropped, one entry per
    distinct value, most frequent first.  Entries with equal counts are
    kept here in order of first appearance. *)
Definition value_counts (col : list cell) : list (cell * Z) :=
  fold_right inserir_desc [] (fold_left contar_valor col []).

(** [Series.map(CARREIRAS)]: a value that is not a key maps to NaN,
    here [None]. *)
Definition map_CARREIRAS (c : cell) : option string :=
  match c with
  | CStr s => get CARREIRAS s
  | _ => None
  end.

(** [a / b * 100] on [int64] operands: both are converted to [float64];
    a zero divisor yields an infinity or NaN, not an exception. *)
Definition np_percentual (a b : Z) : spec_float :=
  fmul (fdiv (float_of_int a) (float_of_int b)) (float_of_int 100).

(** The table [dist]: columns [carreira], [qtd], [Carreira] and
    [Percentual]. *)
Definition distribuicao (df_res : DataFrame) : result (list dist_row) :=
  (col <- coluna df_res "carreira_final" ;;
   let contagem := value_counts col in
   let soma := py_sum (map snd contagem) in
   Ok (map (fun cq => mk_dist (fst cq) (snd cq) (map_CARREIRAS (fst cq))
                        (np_percentual (snd cq) soma))
           contagem))%result.

Definition msg_sem_dados : string :=
  ("Ainda não há dados suficientes para o dashboard. "
   ++ "Peça para mais pessoas responderem o quiz na aba **“Fazer o Quiz”**.")%string.

Definition aba_dashboard (pd : pandas) : app unit :=
  except_FileNotFoundError
    (df_res <- ler_resultados pd ;;
     st (st_write_total (List.length df_res)) ;;
     dist <- lift (distribuicao df_res) ;;
     st (st_bar_dist dist) ;;
     for_each dist (fun row =>
       st (st_write_percentual (Carreira row) (Percentual row))) ;;
     st (st_dataframe df_res))%app
    (st (st_info msg_sem_dados)).

(** The counts and the percentages of [dist] as dictionaries keyed by
    category code. *)
Definition chave_de (c : cell) : string :=
  match c with
  | CStr s => s
  | _ => ""
  end.

Definition contagens (dist : list dist_row) : dict Z :=
  map (fun r => (chave_de (carreira r), qtd r)) dist.

Definition percentuais (dist : list dist_row) : dict spec_float :=
  map (fun r => (chave_de (carreira r), Percentual r)) dist.

(** The initial world: no result file, nothing on the screen. *)
Definition mundo_inicial : mundo := mk_mundo None [].

(** One completed quiz as [salvar_resultado_csv] receives it. *)
Record envio : Type := mk_envio {
  e_agora : string;
  e_nome : string;
  e_resultados : dict Z;
  e_carreira_final : string
}.

Definition salvar_envio (pd : pandas) (e : envio) : app unit :=
  salvar_resultado_csv pd (e_agora e) (e_nome e) (e_resultados e) (e_carreira_final e).

(** The world after saving each submission in turn, and the outcome of
    the last statement that ran. *)
Definition salvar_todos (pd : pandas) (es : list envio) : app unit := for_each es (salvar_envio pd).

(** ** Vocabulary of the statements *)

(** The rows of a file state, none when the file is absent. *)
Definition conteudo (arquivo : option csv_file) : csv_file :=
  match arquivo with
  | None => []
  | Some linhas => linhas
  end.

(** A submission as the quiz tab produces it: the winner is a code of the
    registry, the tally has one entry per code, and the counts fit the
    [int64] column they are stored in. *)
Definition envio_valido (e : envio) : Prop :=
  In (e_carreira_final e) (keys CARREIRAS)
  /\ NoDup (keys (e_resultados e))
  /\ Forall (fun v => - 2 ^ 63 <= v < 2 ^ 63) (values (e_resultados e)).

(** The loaded row carries the winner and the counts of the submission. *)
Definition carrega (e : envio) (row : dict cell) : Prop :=
  get row "carreira_final" = Some (CStr (e_carreira_final e))
  /\ forall codigo pontos,
       get (e_resultados e) codigo = Some pontos ->
       get row ("pontos_" ++ codigo)%string = Some (CInt pontos).

(** [linha] is the row that [salvar_resultado_csv] builds for the
    submission. *)
Definition linha_escrita (e : envio) (linha : dict cell) : Prop :=
  linha_de (e_agora e) (e_nome e) (e_resultados e) (e_carreira_final e) = Ok linha.

(** A response without a usable text: no [text] attribute, [None], the
    empty string, or something that is not a string. *)
Definition malformada (r : resposta) : Prop :=
  forall s, getattr_text r = PyStr s -> s = "".

(** The ways in which the service can be unavailable: the library is
    missing, no key is configured, every call fails, or every response
    that comes back is malformed. *)
Inductive indisponivel (amb : ambiente) : Prop :=
| lib_ausente :
    GEMINI_LIB_DISPONIVEL amb = false -> indisponivel amb
| chave_ausente :
    truthy_key (obter_api_key amb) = false -> indisponivel amb
| erro_de_rede :
    (forall p, exists e, generate_content amb p = Raise e) ->
    (forall p, exists e, generate_text amb p = Raise e) ->
    indisponivel amb
| resposta_malformada :
    (forall p r, generate_content amb p = Ok r -> malformada r) ->
    (forall p r, generate_text amb p = Ok r -> malformada r) ->
    indisponivel amb.

(** The same, with the alternative call [genai.generate_text] failing
    whenever the service is reached. *)
Definition sem_servico (amb : ambiente) : Prop :=
  GEMINI_LIB_DISPONIVEL amb = false
  \/ truthy_key (obter_api_key amb) = false
  \/ ((forall p r, generate_content amb p = Ok r -> malformada r)
      /\ (forall p, exists e, generate_text amb p = Raise e)).

(** A service that answers the Client call with a response whose text is
    [None] and the alternative call with an object that has no [text]. *)
Definition amb_malformado : ambiente :=
  mk_ambiente true (Ok (Some "chave")) None
    (fun _ => Raise AttributeError) (Ok tt)
    (fun _ => Ok (mk_resposta (Some PyNone) (Ok "<Response>")))
    (fun _ => Ok (mk_resposta None (Ok "<Result>"))).

(** A service where every call fails. *)
Definition amb_fora_do_ar : ambiente :=
  mk_ambiente true (Ok (Some "chave")) None
    (fun _ => Raise AttributeError) (Ok tt)
    (fun _ => Raise Exception) (fun _ => Raise Exception).

(** Ten records, seven won by advocacia and three by magistratura. *)
Definition registro (carreira_final : string) : dict cell :=
  [("timestamp", CStr "2025-01-01T10:00:00"); ("nome", CNaN);
   ("carreira_final", CStr carreira_final)].

Definition dez_registros : DataFrame :=
  [ registro "advocacia"; registro "magistratura"; registro "advocacia";
    registro "advocacia"; registro "magistratura"; registro "advocacia";
    registro "advocacia"; registro "advocacia"; registro "magistratura";
    registro "advocacia" ].

(** How often a category code occurs in a column. *)
Fixpoint ocorrencias (codigo : string) (col : list cell) : Z :=
  match col with
  | [] => 0
  | c :: r => (if cell_eqb c (CStr codigo) then 1 else 0) + ocorrencias codigo r
  end.

(** An anonymous submission whose only answer went to advocacia. *)
Definition envio_anonimo : envio :=
  mk_envio "2025-01-01T10:00:00" ""
    [("advocacia", 1); ("magistratura", 0);
     ("ministerio_publico", 0); ("consultoria", 0)]
    "advocacia".

(** The shapes a tally over the two codes advocacia and magistratura can
    take, with [a] and [b] the occurrences counted so far. *)
Definition forma_tally (vistos : list (cell * Z)) (a b : Z) : Prop :=
  (vistos = [] /\ a = 0 /\ b = 0)
  \/ (vistos = [(CStr "advocacia", a)] /\ 0 < a /\ b = 0)
  \/ (vistos = [(CStr "magistratura", b)] /\ a = 0 /\ 0 < b)
  \/ (vistos = [(CStr "advocacia", a); (CStr "magistratura", b)] /\ 0 < a /\ 0 < b)
  \/ (vistos = [(CStr "magistratura", b); (CStr "advocacia", a)] /\ 0 < a /\ 0 < b).

(** What a cell becomes when it is written to the file and read back. *)
Definition apos_csv (pd : pandas) (c : cell) : cell := ler_campo pd (escrever_campo c).

(** ** Vocabulary of the further properties *)

(** The number of answers given to [codigo]. *)
Fixpoint votos (codigo : string) (vals : list (option string)) : Z :=
  match vals with
  | [] => 0
  | v :: r =>
      (match v with
       | Some c => if String.eqb c codigo then 1 else 0
       | None => 0
       end) + votos codigo r
  end.

(** The answer is a code of the registry. *)
Definition reconhecida (v : option string) : bool :=
  match v with
  | Some c => contains CARREIRAS c
  | None => false
  end.

(** The column names that the tally adds to a row, in order. *)
Definition colunas_de (codigos : list string) : list string :=
  flat_map (fun c => [("pontos_" ++ c)%string; ("perc_" ++ c)%string]) codigos.

(** The statement leaves the result file as it found it. *)
Definition preserva_arquivo {A} (m : app A) : Prop :=
  forall w, resultados_csv (snd (m w)) = resultados_csv w.

(** The score lines that the quiz tab writes on the screen. *)
Definition linhas_de_pontos (resultados : dict Z) : list st_event :=
  map (fun cp => st_write_pontos (get_default CARREIRAS (fst cp) (fst cp)) (snd cp)
                   (np_percentual (snd cp) (or_1 (py_sum (values resultados)))))
      (items resultados).

(** The bars of the score chart. *)
Definition barras_esperadas (resultados : dict Z) : list (string * Z) :=
  map (fun cp => (get_default CARREIRAS (fst cp) (fst cp), snd cp)) (items resultados).

(** The percentage lines that the dashboard writes on the screen. *)
Definition linhas_de_percentual (dist : list dist_row) : list st_event :=
  map (fun row => st_write_percentual (Carreira row) (Percentual row)) dist.

(** The cell holds text. *)
Definition is_text (c : cell) : Prop := exists s, c = CStr s.

(** The count recorded for a value in a tally, zero when it has none. *)
Fixpoint conta (vistos : list (cell * Z)) (c : cell) : Z :=
  match vistos with
  | [] => 0
  | (y, n) :: r => if cell_eqb y c then n else conta r c
  end.

(** ** The form of the quiz tab *)

(** An option of a question as the form reads it: its text and the
    category it is tagged with, [None] for a JSON null. *)
Record opcao : Type := mk_opcao {
  o_texto : string;
  o_carreira : option string
}.

(** A question of [perguntas.json]: the keys [id], [texto] and [opcoes],
    the latter from option letter to option. *)
Record pergunta : Type := mk_pergunta {
  p_id : Z;
  p_texto : string;
  p_opcoes : dict opcao
}.

(** [f"{letra}) {dados['texto']}"]. *)
Definition rotulo (letra : string) (dados : opcao) : string :=
  (letra ++ ") " ++ o_texto dados)%string.

(** The list [opcoes_labels] after the inner loop. *)
Definition opcoes_labels (p : pergunta) : list string :=
  map (fun ld => rotulo (fst ld) (snd ld)) (items (p_opcoes p)).

(** The dictionary [mapa_label_carreira] after the inner loop. *)
Definition mapa_label_carreira (p : pergunta) : dict (option string) :=
  fold_left (fun m ld => set m (rotulo (fst ld) (snd ld)) (o_carreira (snd ld)))
    (items (p_opcoes p)) [].

(** [mapa_label_carreira.get(escolha_label)], where [escolha_label] is
    what [st.radio] returned for the question: one of the labels, or
    [None] when nothing is selected. *)
Definition carreira_escolhida (radio : pergunta -> list string -> option string)
  (p : pergunta) : option string :=
  match radio p (opcoes_labels p) with
  | None => None
  | Some escolha_label =>
      match get (mapa_label_carreira p) escolha_label with
      | Some carreira => carreira
      | None => None
      end
  end.

(** [respostas_usuario[id] = v]. *)
Fixpoint set_resposta (r : respostas) (id : Z) (v : option string) : respostas :=
  match r with
  | [] => [(id, v)]
  | (id', v') :: t =>
      if Z.eqb id' id then (id, v) :: t else (id', v') :: set_resposta t id v
  end.

(** The dictionary [respostas_usuario] when the form has been laid out,
    for a bank whose question ids are distinct; see [formulario] for the
    other banks. *)
Definition montar_respostas (radio : pergunta -> list string -> option string)
  (perguntas : list pergunta) : respostas :=
  fold_left (fun r p => set_resposta r (p_id p) (carreira_escolhida radio p))
    perguntas [].

(** [st.radio] as Streamlit behaves when the question has options: it
    returns one of the labels it was given. *)
Definition radio_escolhe (radio : pergunta -> list string -> option string)
  (p : pergunta) : Prop :=
  exists l, radio p (opcoes_labels p) = Some l /\ In l (opcoes_labels p).

(** A radio that keeps Streamlit's default, the first label. *)
Definition radio_padrao (p : pergunta) (labels : list string) : option string :=
  match labels with
  | [] => None
  | l :: _ => Some l
  end.

(** A two-question bank. *)
Definition banco_exemplo : list pergunta :=
  [ mk_pergunta 1 "Qual atividade mais atrai?"
      [("a", mk_opcao "Defender clientes" (Some "advocacia"));
       ("b", mk_opcao "Julgar casos" (Some "magistratura"))];
    mk_pergunta 2 "Qual ambiente prefere?"
      [("a", mk_opcao "Empresas" (Some "consultoria"));
       ("b", mk_opcao "Tribunal" (Some "magistratura"))] ].

(** Only ASCII white space. *)
Fixpoint so_espacos (s : string) : bool :=
  match s with
  | EmptyString => true
  | String c r => is_space c && so_espacos r
  end.

(** Only ASCII characters, for which the bytes of the string are its
    characters. *)
Fixpoint so_ascii (s : string) : bool :=
  match s with
  | EmptyString => true
  | String c r => (N_of_ascii c <? 128)%N && so_ascii r
  end.

(** The prompt sent for a category code. *)
Definition prompt_de (carreira_codigo : string) : string :=
  montar_prompt (get_default CARREIRAS carreira_codigo carreira_codigo)
    (get_default DESCRICOES_BASE carreira_codigo "").

(** The library is there and a key is configured. *)
Definition servico_configurado (amb : ambiente) : Prop :=
  GEMINI_LIB_DISPONIVEL amb = true /\ truthy_key (obter_api_key amb) = true.

(** A service that answers the Client call with the given text. *)
Definition amb_responde (texto : string) : ambiente :=
  mk_ambiente true (Raise Exception) (Some "chave")
    (fun _ => Raise AttributeError) (Ok tt)
    (fun _ => Ok (mk_resposta (Some (PyStr texto)) (Ok "<Response>")))
    (fun _ => Raise AttributeError).

(** An older library: no Client, the alternative call answers. *)
Definition amb_antigo (texto : string) : ambiente :=
  mk_ambiente true (Ok (Some "chave")) None
    (fun _ => Ok tt) (Raise AttributeError)
    (fun _ => Raise AttributeError)
    (fun _ => Ok (mk_resposta (Some (PyStr texto)) (Ok "<Result>"))).

(** ** Vocabulary of the statements about the result file and the form *)

(** An ASCII digit, an ASCII letter. *)
Definition is_digit (c : ascii) : bool :=
  ((48 <=? N_of_ascii c) && (N_of_ascii c <=? 57))%N.

Definition is_letter (c : ascii) : bool :=
  ((65 <=? N_of_ascii c) && (N_of_ascii c <=? 90)
   || (97 <=? N_of_ascii c) && (N_of_ascii c <=? 122))%N.

(** [s] has the shape of [padrao]: a [d] of the pattern stands for a
    digit, any other character for itself. *)
Fixpoint casa (padrao s : string) : bool :=
  match padrao, s with
  | EmptyString, EmptyString => true
  | String p pr, String c sr =>
      (if Ascii.eqb p "d" then is_digit c else Ascii.eqb p c) && casa pr sr
  | _, _ => false
  end.

(** What [datetime.now().isoformat()] returns: the date and the time,
    with the microseconds unless they are zero. *)
Definition iso_timestamp (s : string) : bool :=
  casa "dddd-dd-ddTdd:dd:dd" s || casa "dddd-dd-ddTdd:dd:dd.dddddd" s.

(** A character that may begin a plain name: a letter other than the
    initials of pandas' missing-value tokens, truth values and
    infinities, or a byte of a character outside ASCII. *)
Definition inicial_simples (c : ascii) : bool :=
  (is_letter c
   && negb (existsb (Ascii.eqb c) ["N"; "n"; "T"; "t"; "F"; "f"; "I"; "i"]%char))
  || (128 <=? N_of_ascii c)%N.

(** Only letters, spaces and bytes of characters outside ASCII. *)
Fixpoint letras_e_espacos (s : string) : bool :=
  match s with
  | EmptyString => true
  | String c r =>
      (is_letter c || Ascii.eqb c " " || (128 <=? N_of_ascii c)%N)
      && letras_e_espacos r
  end.

(** A name that [read_csv] reads back as the text it is: letters and
    spaces after a plain initial. *)
Definition nome_simples (s : string) : bool :=
  match s with
  | EmptyString => false
  | String c r => inicial_simples c && letras_e_espacos r
  end.

(** A submission as the quiz tab saves it: an ISO timestamp, a name that
    is empty or plain, a winner that is a code of the registry, a tally
    with one count per code of the registry, each count within the
    integers that a float holds exactly. *)
Definition envio_completo (e : envio) : Prop :=
  iso_timestamp (e_agora e) = true
  /\ (e_nome e = "" \/ nome_simples (e_nome e) = true)
  /\ In (e_carreira_final e) (keys CARREIRAS)
  /\ keys (e_resultados e) = keys CARREIRAS
  /\ Forall (fun v => 0 <= v < 2 ^ 53) (values (e_resultados e)).

(** A pandas whose parser reads every float back as it was written. *)
Definition pandas_exato : pandas := mk_pandas (fun x => x).

(** The rows of a file after [salvar_resultado_csv] has read them and
    written them again. *)
Definition regravar (pd : pandas) (linhas : csv_file) : csv_file :=
  to_csv (map (map_row (ler_campo pd)) linhas).

(** What a row of the file has become when it is read and written
    again: every field is as it was, but a float is now the text of the
    float that was read. *)
Definition regravada (pd : pandas) (antiga nova : dict campo) : Prop :=
  keys nova = keys antiga
  /\ forall k f,
       get antiga k = Some f ->
       get nova k = Some (match f with
                          | FFloat x => FFloat (float_lido pd x)
                          | _ => f
                          end).

(** [fila] is the row of the file for the submission [e]: the row that
    was written for it, after the passes through the file that the later
    saves have made. *)
Definition gravado (pd : pandas) (e : envio) (fila : dict campo) : Prop :=
  exists linha k,
    linha_escrita e linha
    /\ fila = map_row escrever_campo (map_row (Nat.iter k (apos_csv pd)) linha).

(** The file holds one row for each of the submissions, in order; with
    no submission there is no file. *)
Definition arquivo_gravado (pd : pandas) (es : list envio)
  (arquivo : option csv_file) : Prop :=
  (es = [] /\ arquivo = None)
  \/ (es <> []
      /\ exists filas, arquivo = Some filas /\ Forall2 (gravado pd) es filas).


(** The file is absent or is what saving complete submissions to a fresh
    store has left. *)
Definition arquivo_do_programa (pd : pandas) (arquivo : option csv_file) : Prop :=
  exists es,
    Forall envio_completo es
    /\ arquivo = resultados_csv (snd (salvar_todos pd es mundo_inicial)).

(** A named submission with one answer for each of two categories. *)
Definition envio_de_ana : envio :=
  mk_envio "2025-01-02T09:30:00.250000" "Ana Souza"
    [("advocacia", 0); ("magistratura", 1);
     ("ministerio_publico", 0); ("consultoria", 1)]
    "magistratura".

(** No id occurs twice. *)
Fixpoint ids_distintos (ids : list Z) : bool :=
  match ids with
  | [] => true
  | i :: r => negb (existsb (Z.eqb i) r) && ids_distintos r
  end.

(** The answer set of the form as Streamlit lays it out: the radio of a
    question is registered under the key made of its id, and a second
    widget under the key of an earlier one raises [DuplicateWidgetID],
    which ends the script. *)
Definition formulario (radio : pergunta -> list string -> option string)
  (perguntas : list pergunta) : result respostas :=
  if ids_distintos (map p_id perguntas)
  then Ok (montar_respostas radio perguntas)
  else Raise DuplicateWidgetID.

(** * Properties *)

(** ** Dictionaries *)

Section DictFacts.
Context {V : Type}.
Implicit Types (d : dict V) (k : string) (v : V).

Lemma get_some_in_keys d k v : get d k = Some v -> In k (keys d).
Proof.
  induction d as [|[k' v'] r IH]; simpl; [discriminate|].
  destruct (String.eqb_spec k' k); auto.
Qed.

Lemma in_keys_get d k : In k (keys d) -> exists v, get d k = Some v.
Proof.
  induction d as [|[k' v'] r IH]; simpl; [contradiction|].
  intros [->|H].
  - rewrite String.eqb_refl. eauto.
  - destruct (String.eqb k' k); eauto.
Qed.

Lemma keys_set_present d k v v' :
  get d k = Some v -> keys (set d k v') = keys d.
Proof.
  induction d as [|[k0 v0] r IH]; simpl; [discriminate|].
  destruct (String.eqb_spec k0 k) as [->|]; simpl; [reflexivity|].
  intros H. now rewrite (IH H).
Qed.

Lemma set_not_nil d k v : set d k v <> [].
Proof. destruct d as [|[k0 v0] r]; simpl; [|destruct (String.eqb k0 k)]; discriminate. Qed.

Lemma in_keys_set d k k' v : In k (keys d) -> In k (keys (set d k' v)).
Proof.
  induction d as [|[k0 v0] r IH]; simpl; [contradiction|].
  destruct (String.eqb_spec k0 k') as [->|]; simpl; tauto.
Qed.
End DictFacts.

Lemma sum_set_present (d : dict Z) k n v :
  get d k = Some n -> py_sum (values (set d k v)) = py_sum (values d) - n + v.
Proof.
  induction d as [|[k0 v0] r IH]; simpl; [discriminate|].
  destruct (String.eqb_spec k0 k) as [->|]; simpl.
  - intros [= ->]. lia.
  - intros H. rewrite (IH H). lia.
Qed.

(** ** The running maximum *)

(** [max_desde] returns the first entry, in iteration order, whose count
    no other entry exceeds. *)
Lemma max_desde_first_max melhor resto :
  exists pre post,
    melhor :: resto = pre ++ max_desde melhor resto :: post
    /\ Forall (fun kv => snd kv < snd (max_desde melhor resto)) pre
    /\ Forall (fun kv => snd kv <= snd (max_desde melhor resto)) post.
Proof.
  revert melhor.
  induction resto as [|kv r IH]; intros melhor; simpl.
  - exists [], []. repeat split; constructor.
  - destruct (Z.ltb_spec (snd melhor) (snd kv)) as [Hlt|Hge].
    + destruct (IH kv) as (pre & post & Heq & Hpre & Hpost).
      exists (melhor :: pre), post. simpl. rewrite Heq.
      repeat split; auto.
      constructor; auto.
      destruct pre as [|p pre'].
      * injection Heq as Hkv _. rewrite <- Hkv. exact Hlt.
      * injection Heq as Hkv _. subst p. inversion Hpre; subst. lia.
    + destruct (IH melhor) as (pre & post & Heq & Hpre & Hpost).
      destruct pre as [|p pre'].
      * injection Heq as Hm Hr. subst post.
        rewrite <- Hm in Hpost |- *.
        exists [], (kv :: r). simpl.
        repeat split; auto.
      * injection Heq as Hp Hr. subst p.
        exists (melhor :: kv :: pre'), post. simpl. rewrite <- Hr.
        inversion Hpre; subst.
        repeat split; auto.
        constructor; auto. constructor; auto. lia.
Qed.

Lemma py_max_key_first_max (resultados : dict Z) :
  resultados <> [] ->
  exists vencedor m pre post,
    py_max_key resultados = Ok vencedor
    /\ items resultados = pre ++ (vencedor, m) :: post
    /\ Forall (fun kv => snd kv < m) pre
    /\ Forall (fun kv => snd kv <= m) post.
Proof.
  destruct resultados as [|kv r]; [congruence|]. intros _.
  destruct (max_desde_first_max kv r) as (pre & post & Heq & Hpre & Hpost).
  exists (fst (max_desde kv r)), (snd (max_desde kv r)), pre, post.
  unfold py_max_key, items. rewrite <- surjective_pairing. auto.
Qed.

(** ** The tally *)

Lemma keys_contar resultados carreira : keys (contar resultados carreira) = keys resultados.
Proof.
  destruct carreira as [c|]; simpl; [|reflexivity].
  destruct (get resultados c) eqn:E; [|reflexivity].
  eapply keys_set_present; eassumption.
Qed.

Lemma keys_fold_contar vals resultados :
  keys (fold_left contar vals resultados) = keys resultados.
Proof.
  revert resultados. induction vals as [|v r IH]; intros d; simpl; [reflexivity|].
  now rewrite IH, keys_contar.
Qed.

Lemma sum_fold_contar vals resultados :
  (forall v, In v vals -> exists c, v = Some c /\ In c (keys resultados)) ->
  py_sum (values (fold_left contar vals resultados))
  = py_sum (values resultados) + Z.of_nat (List.length vals).
Proof.
  revert resultados. induction vals as [|v r IH]; intros d H.
  - simpl. lia.
  - cbn [fold_left List.length]. rewrite IH.
    + destruct (H v (or_introl eq_refl)) as (c & -> & Hc).
      destruct (in_keys_get _ _ Hc) as (n & Hn).
      simpl. rewrite Hn, (sum_set_present _ _ _ _ Hn). lia.
    + intros v' Hv'. rewrite keys_contar. apply H. now right.
Qed.

Lemma zerar_nil_iff carreiras : zerar carreiras = [] <-> carreiras = [].
Proof.
  unfold zerar. split; [|intros ->; reflexivity].
  destruct carreiras as [|[c n] r]; [reflexivity|]. simpl.
  assert (G : forall (l : list string) (d : dict Z),
             d <> [] -> fold_left (fun d c => set d c 0) l d <> []).
  { induction l as [|x l IH]; intros d Hd; simpl; [exact Hd|].
    apply IH, set_not_nil. }
  intros H. exfalso. revert H. apply G. discriminate.
Qed.

Lemma fold_contar_nil_iff vals resultados :
  fold_left contar vals resultados = [] <-> resultados = [].
Proof.
  split; intros H.
  - pose proof (keys_fold_contar vals resultados) as K. rewrite H in K.
    destruct resultados; [reflexivity|discriminate].
  - subst. induction vals as [|[c|] r IH]; simpl; auto.
Qed.

(** ** The scorer *)

Lemma calcular_resultados_em_ok carreiras respostas_usuario :
  carreiras <> [] ->
  exists resultados carreira_final m pre post,
    calcular_resultados_em carreiras respostas_usuario = Ok (resultados, carreira_final)
    /\ resultados = fold_left contar (map snd respostas_usuario) (zerar carreiras)
    /\ items resultados = pre ++ (carreira_final, m) :: post
    /\ Forall (fun kv => snd kv < m) pre
    /\ Forall (fun kv => snd kv <= m) post.
Proof.
  intros Hne. unfold calcular_resultados_em.
  set (resultados := fold_left contar (map snd respostas_usuario) (zerar carreiras)).
  assert (Hres : resultados <> []).
  { unfold resultados. rewrite fold_contar_nil_iff, zerar_nil_iff. exact Hne. }
  destruct (py_max_key_first_max resultados Hres)
    as (vencedor & m & pre & post & Hmax & Hit & Hpre & Hpost).
  exists resultados, vencedor, m, pre, post.
  rewrite Hmax. simpl. auto.
Qed.

(** C1: for every answer set the scorer returns a winner whose count is
    the maximum of the per-category counts, and among the categories
    that reach the maximum it is the first one in the order of
    [CARREIRAS]; two answers split between advocacia and magistratura
    give advocacia. *)
Theorem calcular_resultados_winner_first_max :
  (forall respostas_usuario : respostas,
     exists resultados carreira_final m pre post,
       calcular_resultados respostas_usuario = Ok (resultados, carreira_final)
       /\ keys resultados = keys CARREIRAS
       /\ items resultados = pre ++ (carreira_final, m) :: post
       /\ Forall (fun kv => snd kv < m) pre
       /\ Forall (fun kv => snd kv <= m) post)
  /\ calcular_resultados [(1, Some "advocacia"); (2, Some "magistratura")]
     = Ok ([("advocacia", 1); ("magistratura", 1);
            ("ministerio_publico", 0); ("consultoria", 0)], "advocacia").
Proof.
  split; [|reflexivity].
  intros respostas_usuario.
  destruct (calcular_resultados_em_ok CARREIRAS respostas_usuario)
    as (resultados & vencedor & m & pre & post & Hcalc & Hdef & Hit & Hpre & Hpost);
    [discriminate|].
  exists resultados, vencedor, m, pre, post.
  repeat split; auto.
  rewrite Hdef. apply keys_fold_contar.
Qed.

(** C2: when every selected value is a code of the registry, the counts
    returned by the scorer add up to the number of answers. *)
Theorem calcular_resultados_sum_is_length (respostas_usuario : respostas) :
  (forall q v, In (q, v) respostas_usuario ->
     exists c, v = Some c /\ In c (keys CARREIRAS)) ->
  exists resultados carreira_final,
    calcular_resultados respostas_usuario = Ok (resultados, carreira_final)
    /\ py_sum (values resultados) = Z.of_nat (List.length respostas_usuario).
Proof.
  intros Hrec.
  destruct (calcular_resultados_em_ok CARREIRAS respostas_usuario)
    as (resultados & vencedor & m & pre & post & Hcalc & Hdef & _);
    [discriminate|].
  exists resultados, vencedor. split; [exact Hcalc|].
  rewrite Hdef, sum_fold_contar.
  - rewrite length_map. reflexivity.
  - intros v Hv. apply in_map_iff in Hv. destruct Hv as ([q v'] & <- & Hin).
    exact (Hrec q v' Hin).
Qed.

Lemma calcular_resultados_sum_is_length_witness :
  exists resultados carreira_final,
    calcular_resultados [(1, Some "consultoria"); (2, Some "advocacia");
                         (3, Some "consultoria")]
    = Ok (resultados, carreira_final)
    /\ py_sum (values resultados) = 3.
Proof.
  apply (calcular_resultados_sum_is_length
           [(1, Some "consultoria"); (2, Some "advocacia"); (3, Some "consultoria")]).
  intros q v H. simpl in H.
  destruct H as [H|[H|[H|[]]]]; injection H as _ <-;
    eexists; (split; [reflexivity|simpl; tauto]).
Defined.

(** C5, as the code has it: the scorer raises exactly when the registry
    is empty, and what it raises then is the [ValueError] of [max] on an
    empty dictionary. *)
Theorem calcular_resultados_em_raises_iff_empty
  (carreiras : dict string) (respostas_usuario : respostas) :
  match calcular_resultados_em carreiras respostas_usuario with
  | Ok _ => carreiras <> []
  | Raise e => carreiras = [] /\ e = ValueError
  end.
Proof.
  destruct carreiras as [|kv r].
  - unfold calcular_resultados_em.
    replace (fold_left contar (map snd respostas_usuario) (zerar []))
      with (@nil (string * Z)).
    + simpl. auto.
    + symmetry. apply fold_contar_nil_iff. reflexivity.
  - destruct (calcular_resultados_em_ok (kv :: r) respostas_usuario)
      as (resultados & vencedor & m & pre & post & -> & _); discriminate.
Qed.

(** C5 as stated fails: with an empty registry the scorer does not raise
    a [ConfigurationError]. *)
Lemma calcular_resultados_em_not_ConfigurationError :
  calcular_resultados_em [] [(1, Some "advocacia")] = Raise ValueError
  /\ calcular_resultados_em [] [(1, Some "advocacia")] <> Raise ConfigurationError.
Proof. split; [reflexivity|discriminate]. Qed.

(** ** Percentages of one result *)

Lemma or_1_nonzero x : or_1 x <> 0.
Proof. unfold or_1. destruct (Z.eqb_spec x 0); lia. Qed.

Lemma percentual_ok pontos total :
  total <> 0 -> percentual pontos total = Ok (np_percentual pontos total).
Proof.
  intros H. unfold percentual, py_truediv.
  destruct (Z.eqb_spec total 0); [contradiction|reflexivity].
Qed.

Lemma in_set {V} (d : dict V) k v k' v' :
  In (k', v') (set d k v) -> (k', v') = (k, v) \/ In (k', v') d.
Proof.
  induction d as [|[k0 v0] r IH]; simpl.
  - intros [H|[]]. now left.
  - destruct (String.eqb k0 k); simpl; intros [H|H]; auto.
    destruct (IH H); auto.
Qed.

Lemma preencher_cells total itens linha :
  total <> 0 ->
  exists linha',
    preencher total itens linha = Ok linha'
    /\ forall k c, In (k, c) linha' ->
         In (k, c) linha
         \/ exists codigo pontos,
              In (codigo, pontos) itens
              /\ (c = CInt pontos \/ c = CFloat (np_percentual pontos total)).
Proof.
  intros Ht. revert linha.
  induction itens as [|[codigo pontos] r IH]; intros linha; cbn [preencher].
  - eexists. split; [reflexivity|]. auto.
  - rewrite (percentual_ok _ _ Ht). cbn [rbind].
    destruct (IH (set (set linha ("pontos_" ++ codigo)%string (CInt pontos))
                      ("perc_" ++ codigo)%string
                      (CFloat (np_percentual pontos total))))
      as (linha' & -> & Hcells).
    exists linha'. split; [reflexivity|].
    intros k c Hin. destruct (Hcells k c Hin) as [Hset|(cd & p & Hr & Hc)].
    + apply in_set in Hset. destruct Hset as [[= -> ->]|Hset].
      * right. exists codigo, pontos. simpl. auto.
      * apply in_set in Hset. destruct Hset as [[= -> ->]|Hset]; [|now left].
        right. exists codigo, pontos. simpl. auto.
    + right. exists cd, p. simpl. auto.
Qed.

Lemma pontuacoes_lines total itens :
  total <> 0 ->
  pontuacoes total itens
  = Ok (map (fun cp => PdfPontuacao (get_default CARREIRAS (fst cp) (fst cp))
                         (snd cp) (np_percentual (snd cp) total))
            itens).
Proof.
  intros Ht. induction itens as [|[codigo pontos] r IH]; simpl; [reflexivity|].
  now rewrite (percentual_ok _ _ Ht), IH.
Qed.

Lemma all_zero_sum (l : list Z) : Forall (fun v => v = 0) l -> py_sum l = 0.
Proof. induction 1; simpl; lia. Qed.

Lemma all_zero_item (resultados : dict Z) codigo pontos :
  Forall (fun v => v = 0) (values resultados) ->
  In (codigo, pontos) (items resultados) -> pontos = 0.
Proof.
  intros Hz Hin. rewrite Forall_forall in Hz. apply Hz.
  unfold values. change pontos with (snd (codigo, pontos)). now apply in_map.
Qed.

(** ** Enrichment *)

Lemma try_except_total {A} (body : result A) (a : A) :
  exists x, try_except body (Ok a) = Ok x.
Proof. destruct body; simpl; eauto. Qed.

Lemma malformada_falls_through (r : resposta) :
  malformada r ->
  try_except (devolver_se_texto (getattr_text r)) (Ok None) = Ok None.
Proof.
  unfold malformada, devolver_se_texto. intros H.
  destruct (getattr_text r) as [|s|[|]]; simpl; try reflexivity.
  rewrite (H s eq_refl). reflexivity.
Qed.

Lemma primeira_tentativa_malformada (amb : ambiente) (prompt : string) :
  (forall p r, generate_content amb p = Ok r -> malformada r) ->
  try_except
    (r <- generate_content amb prompt ;; devolver_se_texto (getattr_text r))%result
    (Ok None) = Ok None.
Proof.
  intros H. destruct (generate_content amb prompt) as [r|e] eqn:E; simpl.
  - apply malformada_falls_through. eapply H; eassumption.
  - reflexivity.
Qed.

Lemma get_gemini_descricao_total (amb : ambiente) (carreira_codigo : string) :
  exists texto, get_gemini_descricao amb carreira_codigo = Ok texto.
Proof.
  unfold get_gemini_descricao.
  destruct (GEMINI_LIB_DISPONIVEL amb); cbn [negb]; [|eauto].
  destruct (obter_api_key amb) as [chave|]; [|eauto].
  destruct (String.eqb chave ""); [eauto|].
  destruct (genai_configure amb chave) as [[]|e]; cbn [try_except rbind];
    apply try_except_total.
Qed.

Lemma get_gemini_descricao_fallback (amb : ambiente) (carreira_codigo : string) :
  sem_servico amb ->
  get_gemini_descricao amb carreira_codigo
  = Ok (get_default DESCRICOES_BASE carreira_codigo "").
Proof.
  unfold sem_servico, get_gemini_descricao.
  intros [Hlib|[Hkey|[Hprim Halt]]].
  - rewrite Hlib. reflexivity.
  - destruct (GEMINI_LIB_DISPONIVEL amb); cbn [negb]; [|reflexivity].
    destruct (obter_api_key amb) as [chave|]; [|reflexivity].
    simpl in Hkey. apply negb_false_iff in Hkey. rewrite Hkey. reflexivity.
  - destruct (GEMINI_LIB_DISPONIVEL amb); cbn [negb]; [|reflexivity].
    destruct (obter_api_key amb) as [chave|]; [|reflexivity].
    destruct (String.eqb chave ""); [reflexivity|].
    set (prompt := montar_prompt _ _).
    destruct (genai_configure amb chave) as [[]|e]; cbn [try_except rbind];
      (destruct (genai_Client amb) as [[]|e'];
       [ rewrite (primeira_tentativa_malformada amb prompt Hprim) | ];
       cbn [rbind];
       destruct (Halt prompt) as [e2 ->]; reflexivity).
Qed.

Lemma descricao_base_known (carreira_codigo : string) :
  In carreira_codigo (keys CARREIRAS) ->
  get DESCRICOES_BASE carreira_codigo
  = Some (get_default DESCRICOES_BASE carreira_codigo "")
  /\ get_default DESCRICOES_BASE carreira_codigo "" <> "".
Proof.
  simpl. intros [<-|[<-|[<-|[<-|[]]]]]; split; (reflexivity || discriminate).
Qed.

(** C7, as the code has it: [get_gemini_descricao] never raises, and it
    returns the static description of the code unchanged when the
    library is missing, when no key is configured, and when the Client
    call fails or answers without text while the alternative call
    fails. *)
Theorem get_gemini_descricao_falls_back
  (amb : ambiente) (carreira_codigo : string) :
  (exists texto, get_gemini_descricao amb carreira_codigo = Ok texto)
  /\ (sem_servico amb ->
      get_gemini_descricao amb carreira_codigo
      = Ok (get_default DESCRICOES_BASE carreira_codigo "")).
Proof.
  split.
  - apply get_gemini_descricao_total.
  - apply get_gemini_descricao_fallback.
Qed.

Lemma get_gemini_descricao_falls_back_witness :
  sem_servico amb_fora_do_ar
  /\ get_gemini_descricao amb_fora_do_ar "magistratura"
     = Ok (get_default DESCRICOES_BASE "magistratura" "").
Proof.
  assert (H : sem_servico amb_fora_do_ar).
  { right. right. split.
    - intros p r E. discriminate E.
    - intros p. exists Exception. reflexivity. }
  split; [exact H|].
  exact (proj2 (get_gemini_descricao_falls_back amb_fora_do_ar "magistratura") H).
Defined.

(** C7 as stated fails: a service whose every response is malformed is
    unavailable, yet the string form of the object returned by the
    alternative call is handed back instead of the static description. *)
Lemma get_gemini_descricao_malformed_leaks :
  indisponivel amb_malformado
  /\ get_gemini_descricao amb_malformado "advocacia" = Ok "<Result>"
  /\ get_gemini_descricao amb_malformado "advocacia"
     <> Ok (get_default DESCRICOES_BASE "advocacia" "").
Proof.
  split; [|split].
  - apply resposta_malformada; intros p r [= <-] s E; discriminate E.
  - reflexivity.
  - discriminate.
Qed.

(** ** The result file *)

Lemma linha_de_ok agora nome resultados carreira_final :
  exists linha, linha_de agora nome resultados carreira_final = Ok linha.
Proof.
  unfold linha_de.
  edestruct preencher_cells as (linha & H & _); [apply or_1_nonzero|].
  exists linha. exact H.
Qed.

Lemma escrever_ler (pd : pandas) (f : campo) :
  escrever_campo (ler_campo pd f)
  = match f with
    | FFloat x => FFloat (float_lido pd x)
    | _ => f
    end.
Proof. destruct f as [[|c s]| |]; reflexivity. Qed.

Lemma mundo_eta (w : mundo) : mk_mundo (resultados_csv w) (tela w) = w.
Proof. destruct w; reflexivity. Qed.

(** One call of [salvar_resultado_csv] on a file that is absent or has
    rows: it does not raise, writes again the rows it has read from the
    file and adds the new row at the end. *)
Lemma salvar_resultado_csv_run (pd : pandas) agora nome resultados carreira_final
  (w : mundo) :
  resultados_csv w <> Some [] ->
  exists linha,
    linha_de agora nome resultados carreira_final = Ok linha
    /\ salvar_resultado_csv pd agora nome resultados carreira_final w
       = (Ok tt,
          mk_mundo (Some (regravar pd (conteudo (resultados_csv w)) ++ to_csv [linha]))
                   (tela w)).
Proof.
  intros Hne.
  destruct (linha_de_ok agora nome resultados carreira_final) as (linha & Hl).
  exists linha. split; [exact Hl|].
  unfold salvar_resultado_csv, bind, lift. rewrite Hl.
  unfold except_FileNotFoundError, bind, ler_resultados, ret, gravar_resultados.
  destruct (resultados_csv w) as [[|fila linhas]|];
    [exfalso; now apply Hne| |reflexivity].
  cbn [read_csv conteudo tela].
  unfold concat, regravar, to_csv. rewrite map_app. reflexivity.
Qed.

Lemma existsb_is_none (respostas_usuario : respostas) q :
  In (q, None) respostas_usuario ->
  existsb is_none (map snd respostas_usuario) = true.
Proof.
  intros H. apply existsb_exists. exists None. split; [|reflexivity].
  change None with (snd (q, @None string)). now apply in_map.
Qed.

(** ** Running statements of the program *)

Lemma bind_lift {A B} (r : result A) (k : A -> app B) (w : mundo) :
  bind (lift r) k w
  = match r with
    | Ok a => k a w
    | Raise e => (Raise e, w)
    end.
Proof. unfold bind, lift. destruct r; reflexivity. Qed.

Lemma bind_st {B} (e : st_event) (k : unit -> app B) (w : mundo) :
  bind (st e) k w = k tt (mk_mundo (resultados_csv w) (tela w ++ [e])).
Proof. reflexivity. Qed.

Lemma bind_run {A B} (m : app A) (k : A -> app B) (w w' : mundo) (a : A) :
  m w = (Ok a, w') -> bind m k w = k a w'.
Proof. intros H. unfold bind. now rewrite H. Qed.

Lemma for_each_st {A} (f : A -> st_event) (l : list A) (w : mundo) :
  for_each l (fun x => st (f x)) w
  = (Ok tt, mk_mundo (resultados_csv w) (tela w ++ map f l)).
Proof.
  revert w. induction l as [|x r IH]; intros w; cbn [for_each map].
  - unfold ret. now rewrite app_nil_r, mundo_eta.
  - rewrite bind_st, IH. cbn [resultados_csv tela].
    now rewrite <- app_assoc.
Qed.

Lemma getitem_CARREIRAS (c : string) :
  In c (keys CARREIRAS) -> getitem CARREIRAS c = Ok (get_default CARREIRAS c c).
Proof.
  intros H. destruct (in_keys_get _ _ H) as (n & Hn).
  unfold getitem, get_default. now rewrite Hn.
Qed.

Lemma barras_de_ok (itens : list (string * Z)) :
  (forall c, In c (keys itens) -> In c (keys CARREIRAS)) ->
  barras_de itens
  = Ok (map (fun cp => (get_default CARREIRAS (fst cp) (fst cp), snd cp)) itens).
Proof.
  induction itens as [|[c p] r IH]; intros H; cbn [barras_de map]; [reflexivity|].
  rewrite (getitem_CARREIRAS c) by (apply H; now left).
  cbn [rbind]. rewrite IH by (intros c' Hc'; apply H; now right). reflexivity.
Qed.

Lemma for_each_write_pontos (total : Z) (itens : list (string * Z)) (w : mundo) :
  total <> 0 ->
  (forall c, In c (keys itens) -> In c (keys CARREIRAS)) ->
  for_each itens (fun cp =>
    nome_c <- lift (getitem CARREIRAS (fst cp)) ;;
    perc <- lift (percentual (snd cp) total) ;;
    st (st_write_pontos nome_c (snd cp) perc))%app w
  = (Ok tt,
     mk_mundo (resultados_csv w)
       (tela w ++ map (fun cp => st_write_pontos (get_default CARREIRAS (fst cp) (fst cp))
                                   (snd cp) (np_percentual (snd cp) total))
                      itens)).
Proof.
  intros Ht. revert w. induction itens as [|[c p] r IH]; intros w H;
    cbn [for_each map].
  - unfold ret. now rewrite app_nil_r, mundo_eta.
  - unfold bind at 1. rewrite bind_lift.
    cbn [fst snd]. rewrite (getitem_CARREIRAS c) by (apply H; now left).
    rewrite bind_lift, (percentual_ok _ _ Ht). unfold st at 1.
    rewrite IH by (intros c' Hc'; apply H; now right).
    cbn [resultados_csv tela]. now rewrite <- app_assoc.
Qed.

Lemma existsb_is_none_false (respostas_usuario : respostas) :
  (forall q v, In (q, v) respostas_usuario -> v <> None) ->
  existsb is_none (map snd respostas_usuario) = false.
Proof.
  intros H. destruct (existsb is_none (map snd respostas_usuario)) eqn:E; [|reflexivity].
  apply existsb_exists in E. destruct E as (v & Hin & Hv).
  apply in_map_iff in Hin. destruct Hin as ([q v'] & <- & Hin).
  destruct v' as [c|]; [discriminate Hv|]. now destruct (H q None Hin).
Qed.

(** ** The two tabs *)

(** C6: an answer set with an unanswered question is rejected: the quiz
    tab shows the validation message and nothing else, does not raise,
    and leaves the result file as it was. *)
Theorem aba_quiz_rejects_incomplete (pd : pandas)
  (amb : ambiente) (agora_iso agora_fmt nome : string)
  (respostas_usuario : respostas) (w : mundo) (q : Z) :
  In (q, None) respostas_usuario ->
  aba_quiz pd amb agora_iso agora_fmt true nome respostas_usuario w
  = (Ok tt, mk_mundo (resultados_csv w) (tela w ++ [st_error msg_validacao])).
Proof.
  intros H. unfold aba_quiz. rewrite (existsb_is_none _ _ H). reflexivity.
Qed.

Lemma aba_quiz_rejects_incomplete_witness :
  aba_quiz pandas_exato amb_fora_do_ar "2025-01-01T10:00:00" "01/01/2025 10:00" true "Ana"
    [(1, Some "advocacia"); (2, None)] mundo_inicial
  = (Ok tt, mk_mundo None [st_error msg_validacao]).
Proof.
  apply (aba_quiz_rejects_incomplete pandas_exato amb_fora_do_ar _ _ _
           [(1, Some "advocacia"); (2, None)] mundo_inicial 2).
  simpl. right. left. reflexivity.
Defined.

Lemma aba_dashboard_absent (pd : pandas) (w : mundo) :
  resultados_csv w = None ->
  aba_dashboard pd w = (Ok tt, mk_mundo None (tela w ++ [st_info msg_sem_dados])).
Proof.
  intros H. unfold aba_dashboard, except_FileNotFoundError, bind, ler_resultados.
  rewrite H. cbn [read_csv]. unfold st. rewrite H. reflexivity.
Qed.

(** ** Round trip through the file *)

Lemma get_map_row {A B} (f : A -> B) (d : dict A) k :
  get (map_row f d) k = option_map f (get d k).
Proof.
  induction d as [|[k0 v0] r IH]; simpl; [reflexivity|].
  destruct (String.eqb k0 k); simpl; auto.
Qed.

Lemma get_set_same {V} (d : dict V) k v : get (set d k v) k = Some v.
Proof.
  induction d as [|[k0 v0] r IH]; simpl.
  - now rewrite String.eqb_refl.
  - destruct (String.eqb_spec k0 k) as [->|Hne]; simpl.
    + now rewrite String.eqb_refl.
    + destruct (String.eqb_spec k0 k); [contradiction|exact IH].
Qed.

Lemma get_set_other {V} (d : dict V) k k' v :
  k' <> k -> get (set d k' v) k = get d k.
Proof.
  intros Hne. induction d as [|[k0 v0] r IH]; simpl.
  - destruct (String.eqb_spec k' k); [contradiction|reflexivity].
  - destruct (String.eqb_spec k0 k') as [->|Hne0]; simpl.
    + destruct (String.eqb_spec k' k); [contradiction|reflexivity].
    + destruct (String.eqb k0 k); [reflexivity|exact IH].
Qed.

(** A column that is neither the count nor the percentage of a listed
    category is left alone by the loop. *)
Lemma preencher_get_frame total itens linha linha' k :
  (forall c, In c (keys itens) ->
     ("pontos_" ++ c)%string <> k /\ ("perc_" ++ c)%string <> k) ->
  preencher total itens linha = Ok linha' ->
  get linha' k = get linha k.
Proof.
  revert linha. induction itens as [|[codigo pontos] r IH]; intros linha Hk;
    cbn [preencher].
  - intros [= <-]. reflexivity.
  - destruct (percentual pontos total) as [perc|e]; cbn [rbind]; [|discriminate].
    intros H. rewrite (IH _ (fun c Hc => Hk c (or_intror Hc)) H).
    destruct (Hk codigo (or_introl eq_refl)) as [H1 H2].
    now rewrite get_set_other, get_set_other.
Qed.

Lemma preencher_get_pontos total itens linha linha' codigo pontos :
  NoDup (keys itens) ->
  preencher total itens linha = Ok linha' ->
  In (codigo, pontos) itens ->
  get linha' ("pontos_" ++ codigo)%string = Some (CInt pontos).
Proof.
  revert linha. induction itens as [|[c0 p0] r IH]; intros linha Hnd;
    cbn [preencher]; [intros _ []|].
  destruct (percentual p0 total) as [perc|e]; cbn [rbind]; [|discriminate].
  intros H Hin. simpl in Hnd. inversion Hnd as [|x l Hnotin Hnd']; subst.
  destruct Hin as [[= -> ->]|Hin].
  - assert (Hk : forall c, In c (keys r) ->
                 ("pontos_" ++ c)%string <> ("pontos_" ++ codigo)%string
                 /\ ("perc_" ++ c)%string <> ("pontos_" ++ codigo)%string).
    { intros c Hc. split; simpl.
      - intros [= E]. apply Hnotin. now rewrite <- E.
      - discriminate. }
    rewrite (preencher_get_frame _ _ _ _ _ Hk H).
    rewrite get_set_other by (simpl; discriminate).
    apply get_set_same.
  - eapply IH; eassumption.
Qed.

Lemma preencher_get_perc total itens linha linha' codigo pontos :
  total <> 0 ->
  NoDup (keys itens) ->
  preencher total itens linha = Ok linha' ->
  In (codigo, pontos) itens ->
  get linha' ("perc_" ++ codigo)%string = Some (CFloat (np_percentual pontos total)).
Proof.
  intros Ht. revert linha. induction itens as [|[c0 p0] r IH]; intros linha Hnd;
    cbn [preencher]; [intros _ []|].
  rewrite (percentual_ok _ _ Ht). cbn [rbind].
  intros H Hin. simpl in Hnd. inversion Hnd as [|x l Hnotin Hnd']; subst.
  destruct Hin as [[= -> ->]|Hin].
  - assert (Hk : forall c, In c (keys r) ->
                 ("pontos_" ++ c)%string <> ("perc_" ++ codigo)%string
                 /\ ("perc_" ++ c)%string <> ("perc_" ++ codigo)%string).
    { intros c Hc. split; simpl.
      - discriminate.
      - intros [= E]. apply Hnotin. now rewrite <- E. }
    rewrite (preencher_get_frame _ _ _ _ _ Hk H).
    apply get_set_same.
  - eapply IH; eassumption.
Qed.

Lemma get_in_items {V} (d : dict V) k v : get d k = Some v -> In (k, v) d.
Proof.
  induction d as [|[k0 v0] r IH]; simpl; [discriminate|].
  destruct (String.eqb_spec k0 k) as [->|]; [intros [= ->]; now left|auto].
Qed.


Lemma keys_set_fresh {V} (d : dict V) k v :
  ~ In k (keys d) -> keys (set d k v) = keys d ++ [k].
Proof.
  induction d as [|[k0 v0] r IH]; simpl; [reflexivity|].
  intros H. destruct (String.eqb_spec k0 k) as [->|Hne]; [tauto|].
  simpl. rewrite IH; tauto.
Qed.

Lemma preencher_keys total itens linha linha' :
  NoDup (keys itens) ->
  (forall c, In c (keys itens) ->
     ~ In ("pontos_" ++ c)%string (keys linha)
     /\ ~ In ("perc_" ++ c)%string (keys linha)) ->
  preencher total itens linha = Ok linha' ->
  keys linha' = keys linha ++ colunas_de (keys itens).
Proof.
  revert linha. induction itens as [|[c0 p0] r IH]; intros linha Hnd Hfresh;
    cbn [preencher].
  - intros [= <-]. unfold colunas_de. simpl. now rewrite app_nil_r.
  - destruct (percentual p0 total) as [perc|e]; cbn [rbind]; [|discriminate].
    intros H. inversion Hnd as [|x l Hnotin Hnd']; subst.
    destruct (Hfresh c0 (or_introl eq_refl)) as [Hp Hq].
    assert (K1 : keys (set linha ("pontos_" ++ c0)%string (CInt p0))
                 = keys linha ++ [("pontos_" ++ c0)%string])
      by now apply keys_set_fresh.
    assert (K2 : keys (set (set linha ("pontos_" ++ c0)%string (CInt p0))
                          ("perc_" ++ c0)%string (CFloat perc))
                 = keys linha ++ [("pontos_" ++ c0)%string; ("perc_" ++ c0)%string]).
    { rewrite keys_set_fresh, K1, <- app_assoc; [reflexivity|].
      rewrite K1, in_app_iff. intros [Hin|[Hin|[]]]; [tauto|].
      simpl in Hin. discriminate Hin. }
    assert (Hfresh' : forall c, In c (keys r) ->
              ~ In ("pontos_" ++ c)%string
                  (keys (set (set linha ("pontos_" ++ c0)%string (CInt p0))
                           ("perc_" ++ c0)%string (CFloat perc)))
              /\ ~ In ("perc_" ++ c)%string
                     (keys (set (set linha ("pontos_" ++ c0)%string (CInt p0))
                              ("perc_" ++ c0)%string (CFloat perc)))).
    { intros c Hc. rewrite K2, !in_app_iff.
      destruct (Hfresh c (or_intror Hc)) as [Hp' Hq'].
      split; intros [Hin|[Hin|[Hin|[]]]]; try tauto; simpl in Hin;
        try discriminate Hin; injection Hin as E; apply Hnotin; now rewrite E. }
    rewrite (IH _ Hnd' Hfresh' H), K2, <- app_assoc. reflexivity.
Qed.

Lemma map_row_map_row {A B C} (f : A -> B) (g : B -> C) (d : dict A) :
  map_row g (map_row f d) = map_row (fun x => g (f x)) d.
Proof. unfold map_row. rewrite map_map. reflexivity. Qed.

Lemma map_row_id {A} (d : dict A) : map_row (fun x => x) d = d.
Proof.
  unfold map_row. rewrite <- (map_id d) at 2. apply map_ext. now intros [k v].
Qed.

Lemma keys_map_row {A B} (f : A -> B) (d : dict A) : keys (map_row f d) = keys d.
Proof. unfold keys, map_row. rewrite map_map. reflexivity. Qed.

(** *** Cells that have passed through the file *)

Lemma iter_apos_text (pd : pandas) (k : nat) (s : string) :
  s <> "" -> Nat.iter k (apos_csv pd) (CStr s) = CStr s.
Proof.
  intros Hs. induction k as [|k IH]; [reflexivity|].
  cbn [Nat.iter nat_rect]. fold (Nat.iter k (apos_csv pd) (CStr s)). rewrite IH.
  destruct s; [congruence|reflexivity].
Qed.

Lemma iter_apos_int (pd : pandas) (k : nat) (z : Z) :
  Nat.iter k (apos_csv pd) (CInt z) = CInt z.
Proof.
  induction k as [|k IH]; [reflexivity|].
  cbn [Nat.iter nat_rect]. fold (Nat.iter k (apos_csv pd) (CInt z)). now rewrite IH.
Qed.




Lemma registry_code_not_empty (c : string) : In c (keys CARREIRAS) -> c <> "".
Proof. simpl. intros [<-|[<-|[<-|[<-|[]]]]]; discriminate. Qed.

(** *** The rows of the file *)

Lemma gravado_novo (pd : pandas) (e : envio) (linha : dict cell) :
  linha_escrita e linha -> gravado pd e (map_row escrever_campo linha).
Proof.
  intros Hl. exists linha, 0%nat. split; [exact Hl|].
  cbn [Nat.iter nat_rect]. now rewrite map_row_id.
Qed.

Lemma gravado_regravar (pd : pandas) (e : envio) (fila : dict campo) :
  gravado pd e fila -> gravado pd e (map_row escrever_campo (map_row (ler_campo pd) fila)).
Proof.
  intros (linha & k & Hl & ->). exists linha, (S k). split; [exact Hl|].
  rewrite !map_row_map_row. reflexivity.
Qed.

Lemma gravados_regravar (pd : pandas) (es : list envio) (filas : csv_file) :
  Forall2 (gravado pd) es filas -> Forall2 (gravado pd) es (regravar pd filas).
Proof.
  unfold regravar, to_csv.
  induction 1 as [|e fila es' filas' H Hall IH]; cbn [map]; constructor;
    [now apply gravado_regravar|exact IH].
Qed.

Lemma arquivo_gravado_not_empty (pd : pandas) (es : list envio)
  (arquivo : option csv_file) :
  arquivo_gravado pd es arquivo -> arquivo <> Some [].
Proof.
  intros [[_ ->]|(Hne & filas & -> & Hall)]; [discriminate|].
  intros [= ->]. inversion Hall; subst. congruence.
Qed.

Lemma arquivo_gravado_conteudo (pd : pandas) (es : list envio)
  (arquivo : option csv_file) :
  arquivo_gravado pd es arquivo -> Forall2 (gravado pd) es (conteudo arquivo).
Proof.
  intros [[-> ->]|(_ & filas & -> & Hall)]; [constructor|exact Hall].
Qed.

(** Saving the submissions [es] one after the other to a file that holds
    the rows of [antes] does not raise and leaves the rows of [antes]
    followed by those of [es]. *)
Lemma salvar_todos_run (pd : pandas) (es antes : list envio) (w : mundo) :
  arquivo_gravado pd antes (resultados_csv w) ->
  exists arquivo,
    salvar_todos pd es w = (Ok tt, mk_mundo arquivo (tela w))
    /\ arquivo_gravado pd (antes ++ es) arquivo.
Proof.
  revert antes w. induction es as [|e r IH]; intros antes w Hw.
  - exists (resultados_csv w). split.
    + cbn. unfold ret. now rewrite mundo_eta.
    + now rewrite app_nil_r.
  - destruct (salvar_resultado_csv_run pd (e_agora e) (e_nome e) (e_resultados e)
                (e_carreira_final e) w (arquivo_gravado_not_empty _ _ _ Hw))
      as (linha & Hl & Hrun).
    set (w1 := mk_mundo (Some (regravar pd (conteudo (resultados_csv w))
                               ++ to_csv [linha])) (tela w)) in *.
    assert (Hw1 : arquivo_gravado pd (antes ++ [e]) (resultados_csv w1)).
    { right. split; [now destruct antes|].
      eexists. split; [reflexivity|].
      apply Forall2_app.
      - apply gravados_regravar. now apply arquivo_gravado_conteudo.
      - constructor; [now apply gravado_novo|constructor]. }
    destruct (IH (antes ++ [e]) w1 Hw1) as (arquivo & Hrest & Harq).
    exists arquivo. split.
    + unfold salvar_todos in *. cbn [for_each]. unfold bind at 1.
      unfold salvar_envio at 1. rewrite Hrun. exact Hrest.
    + now rewrite <- app_assoc in Harq.
Qed.

Lemma salvar_todos_fresh (pd : pandas) (es : list envio) :
  exists arquivo,
    salvar_todos pd es mundo_inicial = (Ok tt, mk_mundo arquivo [])
    /\ arquivo_gravado pd es arquivo.
Proof.
  apply (salvar_todos_run pd es [] mundo_inicial). left. split; reflexivity.
Qed.

Lemma read_csv_gravado (pd : pandas) (es : list envio) (arquivo : option csv_file) :
  es <> [] ->
  arquivo_gravado pd es arquivo ->
  exists filas,
    arquivo = Some filas
    /\ Forall2 (gravado pd) es filas
    /\ read_csv pd arquivo = Ok (map (map_row (ler_campo pd)) filas).
Proof.
  intros Hne [[-> _]|(_ & filas & -> & Hall)]; [congruence|].
  exists filas. split; [reflexivity|]. split; [exact Hall|].
  destruct Hall; [congruence|reflexivity].
Qed.

(** *** What is loaded *)

Lemma carrega_gravado (pd : pandas) (e : envio) (fila : dict campo) :
  envio_valido e ->
  gravado pd e fila ->
  carrega e (map_row (ler_campo pd) fila).
Proof.
  intros (Hcf & Hnd & _) (linha & k & Hl & ->).
  rewrite !map_row_map_row.
  change (fun x => ler_campo pd (escrever_campo (Nat.iter k (apos_csv pd) x)))
    with (Nat.iter (S k) (apos_csv pd)).
  unfold linha_escrita, linha_de in Hl. split.
  - rewrite get_map_row.
    rewrite (preencher_get_frame _ _ _ _ "carreira_final") with (2 := Hl)
      by (intros c _; split; simpl; discriminate).
    cbn [get String.eqb Ascii.eqb Bool.eqb option_map].
    now rewrite (iter_apos_text _ _ _ (registry_code_not_empty _ Hcf)).
  - intros codigo pontos Hget. rewrite get_map_row.
    rewrite (preencher_get_pontos _ _ _ _ _ _ Hnd Hl (get_in_items _ _ _ Hget)).
    cbn [option_map]. now rewrite iter_apos_int.
Qed.

Lemma carrega_all (pd : pandas) (es : list envio) (filas : csv_file) :
  Forall envio_valido es ->
  Forall2 (gravado pd) es filas ->
  Forall2 carrega es (map (map_row (ler_campo pd)) filas).
Proof.
  intros Hval Hall.
  induction Hall as [|e fila es' filas' Hg Hall IH]; cbn [map]; [constructor|].
  inversion Hval as [|e0 l0 Hv Hvs]; subst.
  constructor; [now apply carrega_gravado|now apply IH].
Qed.





Lemma envio_anonimo_completo : envio_completo envio_anonimo.
Proof.
  repeat split; try reflexivity.
  - now left.
  - simpl. tauto.
  - simpl. repeat constructor; lia.
Qed.

Lemma envio_de_ana_completo : envio_completo envio_de_ana.
Proof.
  repeat split; try reflexivity.
  - now right.
  - simpl. tauto.
  - simpl. repeat constructor; lia.
Qed.


(** C8: with no result file the dashboard does not fail, it shows the
    no-data notice and no record; and the first save does not fail
    either: it creates the file with exactly one row, which holds the
    timestamp, the name, the winner and, for each category of the tally,
    its count and its percentage. *)
Theorem absent_file_is_no_data (pd : pandas) (w : mundo) :
  resultados_csv w = None ->
  aba_dashboard pd w = (Ok tt, mk_mundo None (tela w ++ [st_info msg_sem_dados]))
  /\ forall agora nome resultados carreira_final,
       exists fila,
         salvar_resultado_csv pd agora nome resultados carreira_final w
         = (Ok tt, mk_mundo (Some [fila]) (tela w))
         /\ get fila "timestamp" = Some (FTexto agora)
         /\ get fila "nome" = Some (FTexto nome)
         /\ get fila "carreira_final" = Some (FTexto carreira_final)
         /\ (NoDup (keys resultados) ->
             forall codigo pontos,
               In (codigo, pontos) (items resultados) ->
               get fila ("pontos_" ++ codigo)%string = Some (FInt pontos)
               /\ exists perc,
                    percentual pontos (or_1 (py_sum (values resultados))) = Ok perc
                    /\ get fila ("perc_" ++ codigo)%string = Some (FFloat perc)).
Proof.
  intros H. split; [now apply (aba_dashboard_absent pd)|].
  intros agora nome resultados carreira_final.
  assert (Hne : resultados_csv w <> Some []) by (rewrite H; discriminate).
  destruct (salvar_resultado_csv_run pd agora nome resultados carreira_final w Hne)
    as (linha & Hl & Hrun).
  exists (map_row escrever_campo linha). rewrite Hrun, H.
  split; [reflexivity|].
  unfold linha_de in Hl.
  assert (Hfix : forall k,
             (forall c, ("pontos_" ++ c)%string <> k /\ ("perc_" ++ c)%string <> k) ->
             get linha k
             = get [("timestamp", CStr agora);
                    ("nome", CStr (if String.eqb nome "" then "" else nome));
                    ("carreira_final", CStr carreira_final)] k).
  { intros k Hk. eapply preencher_get_frame; [|exact Hl]. intros c _. apply Hk. }
  rewrite !get_map_row.
  rewrite !Hfix by (intros c; split; simpl; discriminate).
  split; [reflexivity|]. split.
  - simpl. destruct (String.eqb_spec nome "") as [->|]; reflexivity.
  - split; [reflexivity|].
    intros Hnd codigo pontos Hin. rewrite !get_map_row.
    rewrite (preencher_get_pontos _ _ _ _ _ _ Hnd Hl Hin).
    split; [reflexivity|].
    exists (np_percentual pontos (or_1 (py_sum (values resultados)))).
    rewrite (percentual_ok _ _ (or_1_nonzero _)).
    rewrite (preencher_get_perc _ _ _ _ _ _ (or_1_nonzero _) Hnd Hl Hin).
    split; reflexivity.
Qed.

Lemma absent_file_is_no_data_witness :
  aba_dashboard pandas_exato mundo_inicial = (Ok tt, mk_mundo None [st_info msg_sem_dados])
  /\ exists fila,
       salvar_envio pandas_exato envio_anonimo mundo_inicial
       = (Ok tt, mk_mundo (Some [fila]) [])
       /\ get fila "carreira_final" = Some (FTexto "advocacia").
Proof.
  destruct (absent_file_is_no_data pandas_exato mundo_inicial eq_refl) as [Hd Hs].
  split; [exact Hd|].
  destruct (Hs (e_agora envio_anonimo) (e_nome envio_anonimo)
              (e_resultados envio_anonimo) (e_carreira_final envio_anonimo))
    as (fila & Hrun & _ & _ & Hcf & _).
  exists fila. split; [exact Hrun|exact Hcf].
Defined.

Lemma celulas_error (df : DataFrame) (nome_coluna : string) (e : exn) :
  celulas df nome_coluna = Raise e -> e = KeyError.
Proof.
  induction df as [|linha r IH]; cbn [celulas]; [discriminate|].
  destruct (get linha nome_coluna); [|now intros [= <-]].
  destruct (celulas r nome_coluna) as [cs|e']; cbn [rbind]; [discriminate|].
  intros [= <-]. now apply IH.
Qed.

Lemma distribuicao_error (df : DataFrame) (e : exn) :
  distribuicao df = Raise e -> e = KeyError.
Proof.
  unfold distribuicao, coluna. destruct df as [|linha r].
  - now intros [= <-].
  - destruct (celulas (linha :: r) "carreira_final") as [col|e'] eqn:E;
      cbn [rbind]; [discriminate|].
    intros [= <-]. now apply (celulas_error _ _ _ E).
Qed.

Lemma aba_dashboard_with_rows (pd : pandas) (fila : dict campo) (linhas : csv_file)
  (t : list st_event) :
  aba_dashboard pd (mk_mundo (Some (fila :: linhas)) t)
  = match distribuicao (map (map_row (ler_campo pd)) (fila :: linhas)) with
    | Ok dist =>
        (Ok tt,
         mk_mundo (Some (fila :: linhas))
           (t ++ [st_write_total (List.length (fila :: linhas)); st_bar_dist dist]
              ++ linhas_de_percentual dist
              ++ [st_dataframe (map (map_row (ler_campo pd)) (fila :: linhas))]))
    | Raise e =>
        (Raise e,
         mk_mundo (Some (fila :: linhas))
           (t ++ [st_write_total (List.length (fila :: linhas))]))
    end.
Proof.
  unfold aba_dashboard, except_FileNotFoundError.
  rewrite (bind_run _ _ _ _ _
             (eq_refl : ler_resultados pd (mk_mundo (Some (fila :: linhas)) t)
                        = (Ok (map (map_row (ler_campo pd)) (fila :: linhas)), _))).
  rewrite bind_st, bind_lift.
  destruct (distribuicao (map (map_row (ler_campo pd)) (fila :: linhas))) as [dist|e] eqn:E.
  - rewrite bind_st. rewrite (bind_run _ _ _ _ _ (for_each_st _ _ _)).
    unfold st. cbn [resultados_csv tela]. rewrite length_map.
    unfold linhas_de_percentual. rewrite <- !app_assoc. reflexivity.
  - cbn [resultados_csv tela]. rewrite length_map.
    pose proof (distribuicao_error _ _ E) as ->. reflexivity.
Qed.




(** ** The dashboard distribution *)

Lemma cell_eqb_str (c : cell) (s : string) : cell_eqb c (CStr s) = true -> c = CStr s.
Proof.
  destruct c as [x| | |]; simpl; try discriminate.
  intros H. apply String.eqb_eq in H. now subst.
Qed.

Lemma ocorrencias_le_length (col : list cell) :
  ocorrencias "advocacia" col + ocorrencias "magistratura" col
  <= Z.of_nat (List.length col).
Proof.
  induction col as [|c r IH]; cbn [ocorrencias List.length]; [lia|].
  destruct (cell_eqb c (CStr "advocacia")) eqn:Ea;
    destruct (cell_eqb c (CStr "magistratura")) eqn:Em; try lia.
  apply cell_eqb_str in Ea. apply cell_eqb_str in Em. congruence.
Qed.

Lemma only_two_codes (col : list cell) :
  ocorrencias "advocacia" col + ocorrencias "magistratura" col
  = Z.of_nat (List.length col) ->
  Forall (fun c => c = CStr "advocacia" \/ c = CStr "magistratura") col.
Proof.
  induction col as [|c r IH]; cbn [ocorrencias List.length]; [constructor|].
  pose proof (ocorrencias_le_length r) as Hle.
  destruct (cell_eqb c (CStr "advocacia")) eqn:Ea;
    destruct (cell_eqb c (CStr "magistratura")) eqn:Em; intros H; try lia.
  - apply cell_eqb_str in Ea. apply cell_eqb_str in Em. congruence.
  - apply cell_eqb_str in Ea. constructor; [now left|]. apply IH. lia.
  - apply cell_eqb_str in Em. constructor; [now right|]. apply IH. lia.
Qed.

Lemma tally_two_codes (col : list cell) :
  Forall (fun c => c = CStr "advocacia" \/ c = CStr "magistratura") col ->
  forall vistos a b,
    forma_tally vistos a b ->
    forma_tally (fold_left contar_valor col vistos)
      (a + ocorrencias "advocacia" col) (b + ocorrencias "magistratura" col).
Proof.
  induction 1 as [|c r Hc Hr IH]; intros vistos a b Hf.
  - cbn [fold_left ocorrencias]. now rewrite !Z.add_0_r.
  - cbn [fold_left ocorrencias]. rewrite !Z.add_assoc. apply IH.
    unfold forma_tally in *.
    destruct Hc as [-> | ->]; simpl; rewrite ?Z.add_0_r;
      destruct Hf as [(-> & -> & ->)|[(-> & Ha & ->)|[(-> & -> & Hb)
                     |[(-> & Ha & Hb)|(-> & Ha & Hb)]]]]; simpl.
    + right. left. repeat split; lia.
    + right. left. repeat split; lia.
    + do 4 right. repeat split; lia.
    + do 3 right. left. repeat split; lia.
    + do 4 right. repeat split; lia.
    + right. right. left. repeat split; lia.
    + do 3 right. left. repeat split; lia.
    + right. right. left. repeat split; lia.
    + do 3 right. left. repeat split; lia.
    + do 4 right. repeat split; lia.
Qed.

Lemma celulas_length (df : DataFrame) nome_coluna col :
  celulas df nome_coluna = Ok col -> List.length col = List.length df.
Proof.
  revert col. induction df as [|linha r IH]; intros col; cbn [celulas].
  - intros [= <-]. reflexivity.
  - destruct (get linha nome_coluna); [|discriminate].
    destruct (celulas r nome_coluna) as [cs|e]; cbn [rbind]; [|discriminate].
    intros [= <-]. cbn [List.length]. now rewrite (IH cs eq_refl).
Qed.

Lemma coluna_length (df : DataFrame) nome_coluna col :
  coluna df nome_coluna = Ok col -> List.length col = List.length df.
Proof.
  unfold coluna. destruct df as [|linha r]; [discriminate|].
  apply celulas_length.
Qed.

(** C3, as the code has it: for ten records, seven won by advocacia and
    three by magistratura, the dashboard distribution has exactly two
    entries, advocacia with count 7 and 70.0 percent and magistratura
    with count 3 and 30.0 percent; categories without records have no
    entry. *)
Theorem distribuicao_seven_three (df_res : DataFrame) (col : list cell) :
  coluna df_res "carreira_final" = Ok col ->
  List.length df_res = 10%nat ->
  ocorrencias "advocacia" col = 7 ->
  ocorrencias "magistratura" col = 3 ->
  exists dist,
    distribuicao df_res = Ok dist
    /\ contagens dist = [("advocacia", 7); ("magistratura", 3)]
    /\ percentuais dist
       = [("advocacia", float_of_int 70); ("magistratura", float_of_int 30)].
Proof.
  intros Hcol Hlen Ha Hm.
  assert (Hall : Forall (fun c => c = CStr "advocacia" \/ c = CStr "magistratura") col).
  { apply only_two_codes. rewrite (coluna_length _ _ _ Hcol), Hlen, Ha, Hm. reflexivity. }
  pose proof (tally_two_codes col Hall [] 0 0
                (or_introl (conj eq_refl (conj eq_refl eq_refl)))) as Hf.
  rewrite Ha, Hm in Hf. simpl in Hf.
  unfold distribuicao. rewrite Hcol. cbn [rbind]. unfold value_counts.
  destruct Hf as [(_ & H & _)|[(_ & _ & H)|[(_ & H & _)|[(-> & _)|(-> & _)]]]];
    try discriminate H; eexists; (split; [reflexivity|]); split; reflexivity.
Qed.

Lemma distribuicao_seven_three_witness :
  exists dist,
    distribuicao dez_registros = Ok dist
    /\ contagens dist = [("advocacia", 7); ("magistratura", 3)]
    /\ percentuais dist
       = [("advocacia", float_of_int 70); ("magistratura", float_of_int 30)].
Proof.
  apply (distribuicao_seven_three dez_registros
           (map (fun r => get_default r "carreira_final" CNaN) dez_registros));
    reflexivity.
Defined.

(** C3 as stated fails: the distribution has no entry, with count 0 or
    otherwise, for a category that won no record. *)
Lemma distribuicao_has_no_zero_entries :
  exists dist,
    distribuicao dez_registros = Ok dist
    /\ get (contagens dist) "ministerio_publico" = None
    /\ get (contagens dist) "consultoria" = None
    /\ get (percentuais dist) "ministerio_publico" = None
    /\ contagens dist
       <> [("advocacia", 7); ("magistratura", 3);
           ("ministerio_publico", 0); ("consultoria", 0)].
Proof.
  eexists. split; [reflexivity|]. repeat split; discriminate.
Qed.

(** ** Percentages never divide by zero *)

Lemma conteudo_do_relatorio_ok (agora nome carreira_final texto : string)
  (resultados : dict Z) :
  conteudo_do_relatorio agora nome resultados carreira_final texto
  = Ok (((if String.eqb nome "" then [] else [PdfParticipante nome])
         ++ [PdfData agora;
             PdfCarreira (get_default CARREIRAS carreira_final carreira_final)])
        ++ map (fun cp => PdfPontuacao (get_default CARREIRAS (fst cp) (fst cp))
                            (snd cp)
                            (np_percentual (snd cp) (or_1 (py_sum (values resultados)))))
               (items resultados)
        ++ [PdfDescricao texto]).
Proof.
  unfold conteudo_do_relatorio.
  rewrite (pontuacoes_lines _ _ (or_1_nonzero _)). reflexivity.
Qed.

Lemma salvar_resultado_csv_outcome (pd : pandas) agora nome resultados carreira_final (w : mundo) :
  fst (salvar_resultado_csv pd agora nome resultados carreira_final w) = Ok tt
  \/ fst (salvar_resultado_csv pd agora nome resultados carreira_final w)
     = Raise EmptyDataError.
Proof.
  destruct (linha_de_ok agora nome resultados carreira_final) as (linha & Hl).
  unfold salvar_resultado_csv, bind, lift. rewrite Hl.
  unfold except_FileNotFoundError, bind, ler_resultados, ret, gravar_resultados.
  destruct (resultados_csv w) as [[|fila linhas]|]; cbn [read_csv fst];
    [now right|now left|now left].
Qed.

(** C10: the percentage computations of [salvar_resultado_csv] and
    [gerar_pdf_relatorio] never divide by zero, whatever the tally: the
    row is always built, saving and the report never end in
    [ZeroDivisionError] (the report can only fail on a text outside
    latin-1), and every category of the tally has its percentage both in
    the row and in the report; when every count is zero, each of these
    percentages is 0.0. *)
Theorem percentages_never_divide_by_zero (pd : pandas)
  (agora nome carreira_final texto : string) (resultados : dict Z) :
  NoDup (keys resultados) ->
  exists linha doc,
    linha_de agora nome resultados carreira_final = Ok linha
    /\ conteudo_do_relatorio agora nome resultados carreira_final texto = Ok doc
    /\ gerar_pdf_relatorio agora nome resultados carreira_final texto
       = (if forallb item_latin1 doc then Ok doc else Raise UnicodeEncodeError)
    /\ (forall w,
          fst (salvar_resultado_csv pd agora nome resultados carreira_final w)
          <> Raise ZeroDivisionError)
    /\ forall codigo pontos,
         In (codigo, pontos) (items resultados) ->
         exists perc,
           percentual pontos (or_1 (py_sum (values resultados))) = Ok perc
           /\ get linha ("perc_" ++ codigo)%string = Some (CFloat perc)
           /\ In (PdfPontuacao (get_default CARREIRAS codigo codigo) pontos perc) doc
           /\ (Forall (fun v => v = 0) (values resultados) ->
               perc = S754_zero false).
Proof.
  intros Hnd.
  pose proof (or_1_nonzero (py_sum (values resultados))) as Ht.
  destruct (linha_de_ok agora nome resultados carreira_final) as (linha & Hl).
  exists linha. eexists.
  split; [exact Hl|]. split; [apply conteudo_do_relatorio_ok|].
  split; [unfold gerar_pdf_relatorio; rewrite conteudo_do_relatorio_ok; reflexivity|].
  split.
  - intros w.
    destruct (salvar_resultado_csv_outcome pd agora nome resultados carreira_final w)
      as [-> | ->]; discriminate.
  - intros codigo pontos Hin.
    exists (np_percentual pontos (or_1 (py_sum (values resultados)))).
    split; [now apply percentual_ok|].
    split; [unfold linha_de in Hl; eapply preencher_get_perc; eassumption|].
    split.
    + apply in_or_app. right. apply in_or_app. left.
      apply in_map_iff. exists (codigo, pontos). split; [reflexivity|exact Hin].
    + intros Hz.
      rewrite (all_zero_item _ _ _ Hz Hin), (all_zero_sum _ Hz). reflexivity.
Qed.

Lemma percentages_never_divide_by_zero_witness :
  exists linha doc,
    linha_de "2025-01-01T10:00:00" "" (zerar CARREIRAS) "advocacia" = Ok linha
    /\ gerar_pdf_relatorio "01/01/2025 10:00" "" (zerar CARREIRAS) "advocacia" "" = Ok doc
    /\ get linha "perc_consultoria" = Some (CFloat (S754_zero false))
    /\ In (PdfPontuacao "Consultoria Jurídica" 0 (S754_zero false)) doc.
Proof.
  assert (Hnd : NoDup (keys (zerar CARREIRAS))).
  { simpl. repeat constructor; simpl; intuition discriminate. }
  destruct (percentages_never_divide_by_zero pandas_exato "2025-01-01T10:00:00" ""
              "advocacia" "" (zerar CARREIRAS) Hnd)
    as (linha & doc0 & Hl & _ & _ & _ & Hperc).
  destruct (percentages_never_divide_by_zero pandas_exato "01/01/2025 10:00" ""
              "advocacia" "" (zerar CARREIRAS) Hnd)
    as (linha' & doc & _ & Hdoc & Hger & _ & Hperc').
  destruct (Hperc "consultoria" 0) as (perc & _ & Hget & _ & Hzero);
    [simpl; tauto|].
  destruct (Hperc' "consultoria" 0) as (perc' & _ & _ & Hin & Hzero');
    [simpl; tauto|].
  exists linha, doc. split; [exact Hl|].
  split.
  { rewrite Hger. rewrite conteudo_do_relatorio_ok in Hdoc.
    injection Hdoc as Hd. rewrite <- Hd. reflexivity. }
  rewrite <- (Hzero ltac:(repeat constructor)) at 1.
  split; [exact Hget|].
  rewrite <- (Hzero' ltac:(repeat constructor)). exact Hin.
Defined.

(** * Further properties of the code *)

(** ** The scorer beyond the claims *)

Lemma get_fold_contar (vals : list (option string)) (d : dict Z) (c : string) :
  get (fold_left contar vals d) c
  = match get d c with
    | Some n => Some (n + votos c vals)
    | None => None
    end.
Proof.
  revert d. induction vals as [|v r IH]; intros d; cbn [fold_left votos].
  - destruct (get d c); [f_equal; lia|reflexivity].
  - rewrite IH. destruct v as [c'|]; cbn [contar].
    + destruct (get d c') as [n'|] eqn:E'.
      * destruct (String.eqb_spec c' c) as [->|Hne].
        -- rewrite get_set_same, E'. f_equal. lia.
        -- rewrite (get_set_other _ _ _ _ Hne).
           destruct (get d c); [f_equal; lia|reflexivity].
      * destruct (String.eqb_spec c' c) as [->|Hne].
        -- rewrite E'. reflexivity.
        -- destruct (get d c); [f_equal; lia|reflexivity].
    + destruct (get d c); [f_equal; lia|reflexivity].
Qed.

Lemma dict_ext {V} (d1 d2 : dict V) :
  keys d1 = keys d2 ->
  NoDup (keys d1) ->
  (forall k, In k (keys d1) -> get d1 k = get d2 k) ->
  d1 = d2.
Proof.
  revert d2. induction d1 as [|[k v] r IH]; intros [|[k2 v2] r2]; simpl;
    try discriminate; [reflexivity|].
  intros [= <- Hk] Hnd Hget. inversion Hnd as [|x l Hnotin Hnd']; subst.
  pose proof (Hget k (or_introl eq_refl)) as H0.
  rewrite String.eqb_refl in H0. injection H0 as <-.
  f_equal. apply IH; auto.
  intros k' Hin. specialize (Hget k' (or_intror Hin)).
  destruct (String.eqb_spec k k') as [->|]; [contradiction|exact Hget].
Qed.

Lemma keys_CARREIRAS_NoDup : NoDup (keys CARREIRAS).
Proof. simpl. repeat constructor; simpl; intuition discriminate. Qed.

(** The tally is determined by the votes of the registry codes. *)
Lemma tally_by_votes (vals1 vals2 : list (option string)) :
  (forall c, In c (keys CARREIRAS) -> votos c vals1 = votos c vals2) ->
  fold_left contar vals1 (zerar CARREIRAS) = fold_left contar vals2 (zerar CARREIRAS).
Proof.
  intros H. apply dict_ext.
  - now rewrite !keys_fold_contar.
  - rewrite keys_fold_contar. exact keys_CARREIRAS_NoDup.
  - intros k Hk. rewrite keys_fold_contar in Hk.
    rewrite !get_fold_contar. destruct (get (zerar CARREIRAS) k); [|reflexivity].
    now rewrite (H k Hk).
Qed.

Lemma votos_perm (c : string) (l1 l2 : list (option string)) :
  Permutation l1 l2 -> votos c l1 = votos c l2.
Proof. induction 1; cbn [votos]; lia. Qed.

Lemma votos_filter (c : string) (vals : list (option string)) :
  In c (keys CARREIRAS) ->
  votos c (filter reconhecida vals) = votos c vals.
Proof.
  intros Hc. induction vals as [|v r IH]; [reflexivity|].
  cbn [filter votos]. destruct v as [c'|]; cbn [reconhecida].
  - destruct (contains CARREIRAS c') eqn:E; cbn [votos]; [lia|].
    destruct (String.eqb_spec c' c) as [->|]; [|lia].
    destruct (in_keys_get _ _ Hc) as (n & Hn).
    unfold contains in E. rewrite Hn in E. discriminate.
  - lia.
Qed.

Lemma get_zerar_CARREIRAS (c : string) :
  get (zerar CARREIRAS) c = if contains CARREIRAS c then Some 0 else None.
Proof.
  assert (E : zerar CARREIRAS
              = [("advocacia", 0); ("magistratura", 0);
                 ("ministerio_publico", 0); ("consultoria", 0)]) by reflexivity.
  rewrite E. unfold contains, CARREIRAS. cbn [get].
  destruct (String.eqb "advocacia" c); [reflexivity|].
  destruct (String.eqb "magistratura" c); [reflexivity|].
  destruct (String.eqb "ministerio_publico" c); [reflexivity|].
  destruct (String.eqb "consultoria" c); reflexivity.
Qed.

Lemma map_snd_filter (r : respostas) :
  map snd (filter (fun qv => reconhecida (snd qv)) r)
  = filter reconhecida (map snd r).
Proof.
  induction r as [|[q v] r IH]; [reflexivity|].
  cbn [filter map snd]. destruct (reconhecida v); cbn [map snd]; now rewrite IH.
Qed.

(** X1: the count the scorer returns for a registry code is the number
    of answers given to that code, and the result has no entry for any
    other code. *)
Theorem calcular_resultados_counts_votes
  (respostas_usuario : respostas) (codigo : string) :
  exists resultados carreira_final,
    calcular_resultados respostas_usuario = Ok (resultados, carreira_final)
    /\ get resultados codigo
       = if contains CARREIRAS codigo
         then Some (votos codigo (map snd respostas_usuario))
         else None.
Proof.
  destruct (calcular_resultados_em_ok CARREIRAS respostas_usuario)
    as (resultados & vencedor & m & pre & post & Hcalc & Hdef & _);
    [discriminate|].
  exists resultados, vencedor. split; [exact Hcalc|].
  rewrite Hdef, get_fold_contar, get_zerar_CARREIRAS.
  destruct (contains CARREIRAS codigo); reflexivity.
Qed.

(** X2: two answer sets that give every registry code the same number
    of answers get the same tally and the same winner. *)
Theorem calcular_resultados_depends_on_votes (r1 r2 : respostas) :
  (forall c, In c (keys CARREIRAS) ->
     votos c (map snd r1) = votos c (map snd r2)) ->
  calcular_resultados r1 = calcular_resultados r2.
Proof.
  intros H. unfold calcular_resultados, calcular_resultados_em.
  now rewrite (tally_by_votes _ _ H).
Qed.

Lemma calcular_resultados_depends_on_votes_witness :
  calcular_resultados [(1, Some "consultoria"); (2, Some "direito"); (3, None)]
  = calcular_resultados [(7, Some "consultoria")].
Proof.
  apply calcular_resultados_depends_on_votes.
  simpl. intros c [<-|[<-|[<-|[<-|[]]]]]; reflexivity.
Defined.

(** X3: the order in which the answers are given does not matter. *)
Theorem calcular_resultados_order_irrelevant (r1 r2 : respostas) :
  Permutation r1 r2 -> calcular_resultados r1 = calcular_resultados r2.
Proof.
  intros H. unfold calcular_resultados, calcular_resultados_em.
  rewrite (tally_by_votes (map snd r1) (map snd r2)); [reflexivity|].
  intros c _. apply votos_perm. now apply Permutation_map.
Qed.

Lemma calcular_resultados_order_irrelevant_witness :
  calcular_resultados [(1, Some "magistratura"); (2, Some "advocacia")]
  = calcular_resultados [(2, Some "advocacia"); (1, Some "magistratura")].
Proof.
  apply calcular_resultados_order_irrelevant. apply perm_swap.
Defined.

(** X4: unanswered questions and codes outside the registry are ignored:
    dropping them from the answer set changes neither the tally nor the
    winner. *)
Theorem calcular_resultados_ignores_unrecognized (respostas_usuario : respostas) :
  calcular_resultados (filter (fun qv => reconhecida (snd qv)) respostas_usuario)
  = calcular_resultados respostas_usuario.
Proof.
  unfold calcular_resultados, calcular_resultados_em.
  rewrite (tally_by_votes
             (map snd (filter (fun qv => reconhecida (snd qv)) respostas_usuario))
             (map snd respostas_usuario)); [reflexivity|].
  intros c Hc. rewrite map_snd_filter. now apply votos_filter.
Qed.

(** X5: the winner is always a code of the registry, so looking up its
    display name in [CARREIRAS] never fails. *)
Theorem calcular_resultados_winner_in_registry (respostas_usuario : respostas) :
  exists resultados carreira_final carreira_nome,
    calcular_resultados respostas_usuario = Ok (resultados, carreira_final)
    /\ In carreira_final (keys CARREIRAS)
    /\ getitem CARREIRAS carreira_final = Ok carreira_nome.
Proof.
  destruct (calcular_resultados_em_ok CARREIRAS respostas_usuario)
    as (resultados & vencedor & m & pre & post & Hcalc & Hdef & Hit & _);
    [discriminate|].
  assert (Hin : In vencedor (keys CARREIRAS)).
  { change (keys CARREIRAS) with (keys (zerar CARREIRAS)).
    rewrite <- (keys_fold_contar (map snd respostas_usuario) (zerar CARREIRAS)).
    rewrite <- Hdef. unfold keys, items in *. rewrite Hit, map_app, in_app_iff.
    right. now left. }
  destruct (in_keys_get _ _ Hin) as (nome & Hnome).
  exists resultados, vencedor, nome. unfold getitem. rewrite Hnome. auto.
Qed.

(** X6: when no answer is a code of the registry (all unanswered or
    unknown, or no answers at all) every count is zero and the winner is
    advocacia, the first code of the registry. *)
Theorem calcular_resultados_no_votes (respostas_usuario : respostas) :
  (forall q v, In (q, v) respostas_usuario -> reconhecida v = false) ->
  calcular_resultados respostas_usuario
  = Ok ([("advocacia", 0); ("magistratura", 0);
         ("ministerio_publico", 0); ("consultoria", 0)], "advocacia").
Proof.
  intros H. unfold calcular_resultados, calcular_resultados_em.
  rewrite (tally_by_votes (map snd respostas_usuario) []); [reflexivity|].
  intros c Hc. cbn [votos].
  induction respostas_usuario as [|[q v] r IH]; [reflexivity|].
  cbn [map snd votos]. rewrite IH by (intros q' v' Hin; apply (H q' v'); now right).
  specialize (H q v (or_introl eq_refl)).
  destruct v as [c'|]; [|reflexivity].
  destruct (String.eqb_spec c' c) as [->|]; [|reflexivity].
  destruct (in_keys_get _ _ Hc) as (n & Hn).
  unfold reconhecida, contains in H. rewrite Hn in H. discriminate.
Qed.

Lemma calcular_resultados_no_votes_witness :
  calcular_resultados [(1, None); (2, Some "notariado")]
  = Ok ([("advocacia", 0); ("magistratura", 0);
         ("ministerio_publico", 0); ("consultoria", 0)], "advocacia").
Proof.
  apply calcular_resultados_no_votes.
  intros q v [[= <- <-]|[[= <- <-]|[]]]; reflexivity.
Defined.

Lemma votos_bounds (c : string) (vals : list (option string)) :
  0 <= votos c vals <= Z.of_nat (List.length vals).
Proof.
  induction vals as [|v r IH]; cbn [votos List.length]; [lia|].
  destruct v as [c'|]; [destruct (String.eqb c' c)|]; lia.
Qed.

Lemma get_of_in_nodup {V} (d : dict V) (k : string) (v : V) :
  NoDup (keys d) -> In (k, v) d -> get d k = Some v.
Proof.
  induction d as [|[k0 v0] r IH]; cbn [keys map fst get]; intros Hnd Hin; [destruct Hin|].
  inversion Hnd as [|a l Hnotin Hnd']; subst.
  destruct Hin as [[= -> ->]|Hin].
  - now rewrite String.eqb_refl.
  - destruct (String.eqb_spec k0 k) as [->|]; [|auto].
    exfalso. apply Hnotin. change k with (fst (k, v)). now apply in_map.
Qed.

(** X7: every count the scorer returns lies between zero and the number
    of answers. *)
Theorem calcular_resultados_counts_bounded (respostas_usuario : respostas) :
  exists resultados carreira_final,
    calcular_resultados respostas_usuario = Ok (resultados, carreira_final)
    /\ forall codigo pontos,
         In (codigo, pontos) (items resultados) ->
         0 <= pontos <= Z.of_nat (List.length respostas_usuario).
Proof.
  destruct (calcular_resultados_em_ok CARREIRAS respostas_usuario)
    as (resultados & vencedor & m & pre & post & Hcalc & Hdef & _);
    [discriminate|].
  exists resultados, vencedor. split; [exact Hcalc|].
  intros codigo pontos Hin.
  assert (Hnd : NoDup (keys resultados)).
  { rewrite Hdef, keys_fold_contar. exact keys_CARREIRAS_NoDup. }
  pose proof (get_of_in_nodup _ _ _ Hnd Hin) as Hget.
  rewrite Hdef, get_fold_contar, get_zerar_CARREIRAS in Hget.
  destruct (contains CARREIRAS codigo); [|discriminate].
  injection Hget as <-.
  pose proof (votos_bounds codigo (map snd respostas_usuario)) as Hb.
  rewrite length_map in Hb. lia.
Qed.

(** ** Persistence beyond the claims *)

Lemma regravada_regravar (pd : pandas) (filas : csv_file) :
  Forall2 (regravada pd) filas (regravar pd filas).
Proof.
  unfold regravar, to_csv.
  induction filas as [|fila r IH]; cbn [map]; constructor; [|exact IH].
  split.
  - now rewrite !keys_map_row.
  - intros k c Hget. rewrite !get_map_row, Hget. cbn [option_map].
    now rewrite escrever_ler.
Qed.

Lemma arquivo_do_programa_gravado (pd : pandas) (arquivo : option csv_file) :
  arquivo_do_programa pd arquivo -> exists es, arquivo_gravado pd es arquivo.
Proof.
  intros (es & _ & ->).
  destruct (salvar_todos_fresh pd es) as (arquivo & Hrun & Harq).
  exists es. now rewrite Hrun.
Qed.

Lemma arquivo_do_programa_not_empty (pd : pandas) (arquivo : option csv_file) :
  arquivo_do_programa pd arquivo -> arquivo <> Some [].
Proof.
  intros H. destruct (arquivo_do_programa_gravado pd arquivo H) as (es & Hes).
  exact (arquivo_gravado_not_empty _ _ _ Hes).
Qed.

(** X8: saving a result of the quiz, whose row has the columns of the
    rows already there, when the file is absent or is what the program
    has saved so far never raises and leaves the screen alone.  The new file holds the rows of the old one, in order and each
    with the columns and the fields it had, but for the floats, which
    are written again from what was read; and it holds exactly one row
    more, at the end, the row of this result. *)
Theorem salvar_resultado_csv_appends (pd : pandas) (e : envio) (w : mundo) :
  arquivo_do_programa pd (resultados_csv w) ->
  envio_completo e ->
  exists linha regravadas,
    linha_de (e_agora e) (e_nome e) (e_resultados e) (e_carreira_final e) = Ok linha
    /\ salvar_resultado_csv pd (e_agora e) (e_nome e) (e_resultados e)
         (e_carreira_final e) w
       = (Ok tt,
          mk_mundo (Some (regravadas ++ [map_row escrever_campo linha])) (tela w))
    /\ Forall2 (regravada pd) (conteudo (resultados_csv w)) regravadas.
Proof.
  intros Hw _.
  destruct (salvar_resultado_csv_run pd (e_agora e) (e_nome e) (e_resultados e)
              (e_carreira_final e) w (arquivo_do_programa_not_empty _ _ Hw))
    as (linha & Hl & Hrun).
  exists linha, (regravar pd (conteudo (resultados_csv w))).
  split; [exact Hl|]. split; [exact Hrun|]. apply regravada_regravar.
Qed.

Lemma salvar_resultado_csv_appends_witness :
  exists linha regravadas,
    linha_de "2025-01-02T09:30:00.250000" "Ana Souza" (e_resultados envio_de_ana)
      "magistratura" = Ok linha
    /\ salvar_resultado_csv pandas_exato "2025-01-02T09:30:00.250000" "Ana Souza"
         (e_resultados envio_de_ana) "magistratura"
         (snd (salvar_todos pandas_exato [envio_anonimo] mundo_inicial))
       = (Ok tt,
          mk_mundo (Some (regravadas ++ [map_row escrever_campo linha])) [])
    /\ Forall2 (regravada pandas_exato)
         (conteudo (resultados_csv
                      (snd (salvar_todos pandas_exato [envio_anonimo] mundo_inicial))))
         regravadas.
Proof.
  apply (salvar_resultado_csv_appends pandas_exato envio_de_ana
           (snd (salvar_todos pandas_exato [envio_anonimo] mundo_inicial))).
  - exists [envio_anonimo]. split; [|reflexivity].
    constructor; [exact envio_anonimo_completo|constructor].
  - exact envio_de_ana_completo.
Defined.

(** X9: the row written for a tally has the columns timestamp, nome and
    carreira_final followed, for each category of the tally in order, by
    its pontos_ and perc_ columns. *)
Theorem linha_de_columns
  (agora nome carreira_final : string) (resultados : dict Z) :
  NoDup (keys resultados) ->
  exists linha,
    linha_de agora nome resultados carreira_final = Ok linha
    /\ keys linha
       = ["timestamp"; "nome"; "carreira_final"] ++ colunas_de (keys resultados).
Proof.
  intros Hnd.
  destruct (linha_de_ok agora nome resultados carreira_final) as (linha & Hl).
  exists linha. split; [exact Hl|].
  unfold linha_de in Hl.
  apply (preencher_keys _ _ _ _ Hnd) in Hl; [exact Hl|].
  intros c _. simpl. split; intros [H|[H|[H|[]]]]; discriminate H.
Qed.

Lemma linha_de_columns_witness :
  exists linha,
    linha_de "2025-01-01T10:00:00" "Ana" (zerar CARREIRAS) "advocacia" = Ok linha
    /\ keys linha
       = ["timestamp"; "nome"; "carreira_final";
          "pontos_advocacia"; "perc_advocacia";
          "pontos_magistratura"; "perc_magistratura";
          "pontos_ministerio_publico"; "perc_ministerio_publico";
          "pontos_consultoria"; "perc_consultoria"].
Proof.
  apply (linha_de_columns "2025-01-01T10:00:00" "Ana" "advocacia" (zerar CARREIRAS)).
  simpl. repeat constructor; simpl; intuition discriminate.
Defined.

(** ** The quiz tab beyond the claims *)

Lemma latin1_registry_name (c : string) :
  In c (keys CARREIRAS) -> latin1 (get_default CARREIRAS c c) = true.
Proof. simpl. intros [<-|[<-|[<-|[<-|[]]]]]; reflexivity. Qed.

Lemma forallb_item_latin1_doc (agora nome carreira_final texto : string)
  (resultados : dict Z) (doc : list pdf_item) :
  keys resultados = keys CARREIRAS ->
  In carreira_final (keys CARREIRAS) ->
  conteudo_do_relatorio agora nome resultados carreira_final texto = Ok doc ->
  forallb item_latin1 doc = latin1 nome && latin1 agora && latin1 texto.
Proof.
  intros Hkeys Hcf. rewrite conteudo_do_relatorio_ok. intros [= <-].
  rewrite !forallb_app. cbn [forallb item_latin1].
  rewrite (latin1_registry_name _ Hcf).
  assert (Hp : forallb item_latin1
                 (map (fun cp => PdfPontuacao (get_default CARREIRAS (fst cp) (fst cp))
                                   (snd cp)
                                   (np_percentual (snd cp)
                                      (or_1 (py_sum (values resultados)))))
                      (items resultados)) = true).
  { apply forallb_forall. intros i Hi. apply in_map_iff in Hi.
    destruct Hi as ([c p] & <- & Hin). cbn [item_latin1 fst].
    apply latin1_registry_name. rewrite <- Hkeys.
    change c with (fst (c, p)). now apply in_map. }
  rewrite Hp.
  destruct (String.eqb_spec nome "") as [->|_]; cbn [forallb item_latin1 latin1].
  - destruct (latin1 agora), (latin1 texto); reflexivity.
  - destruct (latin1 nome), (latin1 agora), (latin1 texto); reflexivity.
Qed.

(** A complete submission up to the report: the tab shows the winner,
    the chart, the score lines and the description and saves the row;
    what follows depends on the report alone. *)
Lemma aba_quiz_complete_run (pd : pandas) (amb : ambiente)
  (agora_iso agora_fmt nome : string) (respostas_usuario : respostas) (w : mundo) :
  (forall q v, In (q, v) respostas_usuario -> v <> None) ->
  resultados_csv w <> Some [] ->
  exists resultados carreira_final linha descricao doc,
    calcular_resultados respostas_usuario = Ok (resultados, carreira_final)
    /\ In carreira_final (keys CARREIRAS)
    /\ keys resultados = keys CARREIRAS
    /\ linha_de agora_iso nome resultados carreira_final = Ok linha
    /\ get_gemini_descricao amb carreira_final = Ok descricao
    /\ conteudo_do_relatorio agora_fmt nome resultados carreira_final descricao = Ok doc
    /\ aba_quiz pd amb agora_iso agora_fmt true nome respostas_usuario w
       = let arquivo :=
           Some (regravar pd (conteudo (resultados_csv w))
                 ++ [map_row escrever_campo linha]) in
         let mostrado :=
           tela w
           ++ [st_success (get_default CARREIRAS carreira_final carreira_final);
               st_bar_pontos (barras_esperadas resultados)]
           ++ linhas_de_pontos resultados
           ++ [st_write_texto descricao] in
         if forallb item_latin1 doc
         then (Ok tt,
               mk_mundo arquivo
                 (mostrado ++ [st_download_button doc; st_info msg_salvo]))
         else (Raise UnicodeEncodeError, mk_mundo arquivo mostrado).
Proof.
  intros Hcomp Hfile.
  destruct (calcular_resultados_em_ok CARREIRAS respostas_usuario)
    as (resultados & vencedor & m & pre & post & Hcalc & Hdef & Hit & _);
    [discriminate|].
  assert (Hkeys : keys resultados = keys CARREIRAS).
  { rewrite Hdef. apply keys_fold_contar. }
  assert (Hin : In vencedor (keys CARREIRAS)).
  { rewrite <- Hkeys. unfold keys, items in *. rewrite Hit, map_app, in_app_iff.
    right. now left. }
  assert (Hsub : forall c, In c (keys (items resultados)) -> In c (keys CARREIRAS)).
  { intros c Hc. unfold items in Hc. now rewrite Hkeys in Hc. }
  pose proof (or_1_nonzero (py_sum (values resultados))) as Ht.
  destruct (get_gemini_descricao_total amb vencedor) as (descricao & Hdesc).
  destruct (salvar_resultado_csv_run pd agora_iso nome resultados vencedor
              (mk_mundo (resultados_csv w)
                 ((((tela w ++ [st_success (get_default CARREIRAS vencedor vencedor)])
                    ++ [st_bar_pontos (barras_esperadas resultados)])
                   ++ linhas_de_pontos resultados)
                  ++ [st_write_texto descricao])) Hfile)
    as (linha & Hl & Hrun).
  exists resultados, vencedor, linha, descricao. eexists.
  split; [exact Hcalc|]. split; [exact Hin|]. split; [exact Hkeys|].
  split; [exact Hl|]. split; [exact Hdesc|].
  split; [apply conteudo_do_relatorio_ok|].
  unfold aba_quiz. rewrite (existsb_is_none_false _ Hcomp).
  change (calcular_resultados_em CARREIRAS respostas_usuario)
    with (calcular_resultados respostas_usuario) in Hcalc.
  rewrite bind_lift, Hcalc. cbn [fst snd].
  rewrite bind_lift, (getitem_CARREIRAS _ Hin).
  rewrite bind_st.
  rewrite bind_lift, (barras_de_ok _ Hsub). fold (barras_esperadas resultados).
  rewrite bind_st.
  rewrite (bind_run _ _ _ _ _ (for_each_write_pontos _ _ _ Ht Hsub)).
  fold (linhas_de_pontos resultados). cbn [resultados_csv tela].
  rewrite bind_lift, Hdesc. rewrite bind_st. cbn [resultados_csv tela].
  rewrite (bind_run _ _ _ _ _ Hrun). cbn [resultados_csv tela].
  rewrite bind_lift. unfold gerar_pdf_relatorio.
  rewrite conteudo_do_relatorio_ok. cbn [rbind]. cbv zeta.
  destruct (forallb item_latin1 _).
  - rewrite bind_st. unfold st. cbn [resultados_csv tela].
    rewrite <- !app_assoc. reflexivity.
  - rewrite <- !app_assoc. reflexivity.
Qed.

(** X11: a submission in which every question has a selection is never
    rejected; when the file is absent or is what the program has saved so
    far and the name, the formatted date and the description can be
    encoded in latin-1, it does not raise either, whatever the service
    does: the tab shows the winner's display name, the score chart and
    one score line per category, the description, the download button
    and the saved notice, in this order, and the result file gains
    exactly one row, the one of this result, after the rows it already
    had, which are written again from what was read. *)
Theorem aba_quiz_accepts_complete (pd : pandas)
  (amb : ambiente) (agora_iso agora_fmt nome : string)
  (respostas_usuario : respostas) (w : mundo) :
  (forall q v, In (q, v) respostas_usuario -> v <> None) ->
  arquivo_do_programa pd (resultados_csv w) ->
  latin1 nome = true ->
  latin1 agora_fmt = true ->
  (forall c d, In c (keys CARREIRAS) ->
               get_gemini_descricao amb c = Ok d -> latin1 d = true) ->
  exists resultados carreira_final carreira_nome linha descricao pdf regravadas,
    calcular_resultados respostas_usuario = Ok (resultados, carreira_final)
    /\ getitem CARREIRAS carreira_final = Ok carreira_nome
    /\ linha_de agora_iso nome resultados carreira_final = Ok linha
    /\ get_gemini_descricao amb carreira_final = Ok descricao
    /\ gerar_pdf_relatorio agora_fmt nome resultados carreira_final descricao = Ok pdf
    /\ Forall2 (regravada pd) (conteudo (resultados_csv w)) regravadas
    /\ aba_quiz pd amb agora_iso agora_fmt true nome respostas_usuario w
       = (Ok tt,
          mk_mundo
            (Some (regravadas ++ [map_row escrever_campo linha]))
            (tela w
             ++ [st_success carreira_nome; st_bar_pontos (barras_esperadas resultados)]
             ++ linhas_de_pontos resultados
             ++ [st_write_texto descricao; st_download_button pdf; st_info msg_salvo])).
Proof.
  intros Hcomp Hw Hnome Hagora Htexto.
  destruct (aba_quiz_complete_run pd amb agora_iso agora_fmt nome respostas_usuario w
              Hcomp (arquivo_do_programa_not_empty _ _ Hw))
    as (resultados & vencedor & linha & descricao & doc
        & Hcalc & Hin & Hkeys & Hl & Hdesc & Hdoc & Hrun).
  assert (Hlat : forallb item_latin1 doc = true).
  { rewrite (forallb_item_latin1_doc _ _ _ _ _ _ Hkeys Hin Hdoc).
    now rewrite Hnome, Hagora, (Htexto _ _ Hin Hdesc). }
  exists resultados, vencedor, (get_default CARREIRAS vencedor vencedor), linha,
    descricao, doc, (regravar pd (conteudo (resultados_csv w))).
  split; [exact Hcalc|]. split; [now apply getitem_CARREIRAS|].
  split; [exact Hl|]. split; [exact Hdesc|].
  split; [unfold gerar_pdf_relatorio; rewrite Hdoc; cbn [rbind]; now rewrite Hlat|].
  split; [apply regravada_regravar|].
  rewrite Hrun. cbv zeta. rewrite Hlat. rewrite <- !app_assoc. reflexivity.
Qed.

Lemma aba_quiz_accepts_complete_witness :
  exists linha,
    fst (aba_quiz pandas_exato amb_fora_do_ar "2025-01-01T10:00:00"
           "01/01/2025 10:00" true "" [(1, Some "consultoria")] mundo_inicial)
    = Ok tt
    /\ resultados_csv
         (snd (aba_quiz pandas_exato amb_fora_do_ar "2025-01-01T10:00:00"
                 "01/01/2025 10:00" true "" [(1, Some "consultoria")] mundo_inicial))
       = Some [map_row escrever_campo linha].
Proof.
  destruct (aba_quiz_accepts_complete pandas_exato amb_fora_do_ar
              "2025-01-01T10:00:00" "01/01/2025 10:00" ""
              [(1, Some "consultoria")] mundo_inicial)
    as (resultados & cf & cn & linha & descricao & pdf & regravadas
        & _ & _ & _ & _ & _ & Hreg & Hrun).
  - intros q v [[= <- <-]|[]]. discriminate.
  - exists []. split; [constructor|reflexivity].
  - reflexivity.
  - reflexivity.
  - simpl. intros c d [<-|[<-|[<-|[<-|[]]]]] [= <-]; reflexivity.
  - exists linha. rewrite Hrun. inversion Hreg. split; reflexivity.
Defined.

(** X24: when the name, which is not empty, or the description has a
    character outside latin-1, a complete submission on such a file ends
    in [UnicodeEncodeError] at the report: the result and the description
    are on the screen and the row has been saved by then, but there is
    no download button and no saved notice. *)
Theorem aba_quiz_report_outside_latin1 (pd : pandas)
  (amb : ambiente) (agora_iso agora_fmt nome : string)
  (respostas_usuario : respostas) (w : mundo) :
  (forall q v, In (q, v) respostas_usuario -> v <> None) ->
  arquivo_do_programa pd (resultados_csv w) ->
  latin1 nome = false
  \/ (forall c d, In c (keys CARREIRAS) ->
                  get_gemini_descricao amb c = Ok d -> latin1 d = false) ->
  exists resultados carreira_final carreira_nome linha descricao regravadas,
    calcular_resultados respostas_usuario = Ok (resultados, carreira_final)
    /\ getitem CARREIRAS carreira_final = Ok carreira_nome
    /\ linha_de agora_iso nome resultados carreira_final = Ok linha
    /\ get_gemini_descricao amb carreira_final = Ok descricao
    /\ gerar_pdf_relatorio agora_fmt nome resultados carreira_final descricao
       = Raise UnicodeEncodeError
    /\ Forall2 (regravada pd) (conteudo (resultados_csv w)) regravadas
    /\ aba_quiz pd amb agora_iso agora_fmt true nome respostas_usuario w
       = (Raise UnicodeEncodeError,
          mk_mundo
            (Some (regravadas ++ [map_row escrever_campo linha]))
            (tela w
             ++ [st_success carreira_nome; st_bar_pontos (barras_esperadas resultados)]
             ++ linhas_de_pontos resultados
             ++ [st_write_texto descricao])).
Proof.
  intros Hcomp Hw Hfora.
  destruct (aba_quiz_complete_run pd amb agora_iso agora_fmt nome respostas_usuario w
              Hcomp (arquivo_do_programa_not_empty _ _ Hw))
    as (resultados & vencedor & linha & descricao & doc
        & Hcalc & Hin & Hkeys & Hl & Hdesc & Hdoc & Hrun).
  assert (Hlat : forallb item_latin1 doc = false).
  { rewrite (forallb_item_latin1_doc _ _ _ _ _ _ Hkeys Hin Hdoc).
    destruct Hfora as [Hn|Hd].
    - now rewrite Hn.
    - rewrite (Hd _ _ Hin Hdesc). now rewrite !andb_false_r. }
  exists resultados, vencedor, (get_default CARREIRAS vencedor vencedor), linha,
    descricao, (regravar pd (conteudo (resultados_csv w))).
  split; [exact Hcalc|]. split; [now apply getitem_CARREIRAS|].
  split; [exact Hl|]. split; [exact Hdesc|].
  split; [unfold gerar_pdf_relatorio; rewrite Hdoc; cbn [rbind]; now rewrite Hlat|].
  split; [apply regravada_regravar|].
  rewrite Hrun. cbv zeta. rewrite Hlat. reflexivity.
Qed.

Lemma aba_quiz_report_outside_latin1_witness :
  exists linha,
    aba_quiz pandas_exato amb_fora_do_ar "2025-01-01T10:00:00" "01/01/2025 10:00"
      true "Łukasz" [(1, Some "consultoria")] mundo_inicial
    = (Raise UnicodeEncodeError,
       mk_mundo (Some [map_row escrever_campo linha])
         ([st_success "Consultoria Jurídica";
           st_bar_pontos (barras_esperadas (contar (zerar CARREIRAS) (Some "consultoria")))]
          ++ linhas_de_pontos (contar (zerar CARREIRAS) (Some "consultoria"))
          ++ [st_write_texto (get_default DESCRICOES_BASE "consultoria" "")])).
Proof.
  destruct (aba_quiz_report_outside_latin1 pandas_exato amb_fora_do_ar
              "2025-01-01T10:00:00" "01/01/2025 10:00" "Łukasz"
              [(1, Some "consultoria")] mundo_inicial)
    as (resultados & cf & cn & linha & descricao & regravadas
        & Hcalc & Hcn & _ & Hdesc & _ & Hreg & Hrun).
  - intros q v [[= <- <-]|[]]. discriminate.
  - exists []. split; [constructor|reflexivity].
  - left. reflexivity.
  - injection Hcalc as <- <-. injection Hcn as <-. injection Hdesc as <-.
    inversion Hreg; subst. exists linha. exact Hrun.
Defined.

(** ** The dashboard tab beyond the claims *)

Lemma preserva_lift {A} (r : result A) : preserva_arquivo (lift r).
Proof. intros w. reflexivity. Qed.

Lemma preserva_st (e : st_event) : preserva_arquivo (st e).
Proof. intros w. reflexivity. Qed.

Lemma preserva_ler (pd : pandas) : preserva_arquivo (ler_resultados pd).
Proof. intros w. reflexivity. Qed.

Lemma preserva_bind {A B} (m : app A) (k : A -> app B) :
  preserva_arquivo m -> (forall a, preserva_arquivo (k a)) ->
  preserva_arquivo (bind m k).
Proof.
  intros Hm Hk w. unfold bind. specialize (Hm w).
  destruct (m w) as [[a|e] w']; cbn [snd] in *.
  - now rewrite Hk.
  - exact Hm.
Qed.

Lemma preserva_for_each {A} (l : list A) (corpo : A -> app unit) :
  (forall x, preserva_arquivo (corpo x)) -> preserva_arquivo (for_each l corpo).
Proof.
  intros H. induction l as [|x r IH]; cbn [for_each].
  - intros w. reflexivity.
  - apply preserva_bind; auto.
Qed.

Lemma preserva_except {A} (body handler : app A) :
  preserva_arquivo body -> preserva_arquivo handler ->
  preserva_arquivo (except_FileNotFoundError body handler).
Proof.
  intros Hb Hh w. unfold except_FileNotFoundError. specialize (Hb w).
  destruct (body w) as [[a|[]] w']; cbn [snd] in *; try exact Hb.
  now rewrite Hh.
Qed.

(** X12: the dashboard tab only reads: whatever the file holds, and
    whether the tab ends normally or raises, the result file afterwards
    is the file it found. *)
Theorem aba_dashboard_never_writes (pd : pandas) (w : mundo) :
  resultados_csv (snd (aba_dashboard pd w)) = resultados_csv w.
Proof.
  revert w. change (preserva_arquivo (aba_dashboard pd)).
  unfold aba_dashboard. apply preserva_except; [|apply preserva_st].
  apply preserva_bind; [apply (preserva_ler pd)|]. intros df.
  apply preserva_bind; [apply preserva_st|]. intros _.
  apply preserva_bind; [apply preserva_lift|]. intros dist.
  apply preserva_bind; [apply preserva_st|]. intros _.
  apply preserva_bind; [|intros _; apply preserva_st].
  apply preserva_for_each. intros row. apply preserva_st.
Qed.

Lemma coluna_missing (df : DataFrame) (nome_coluna : string) :
  df <> [] ->
  (forall row, In row df -> get row nome_coluna = None) ->
  coluna df nome_coluna = Raise KeyError.
Proof.
  destruct df as [|row r]; [congruence|]. intros _ H. cbn [coluna celulas].
  now rewrite (H row (or_introl eq_refl)).
Qed.

(** X13: a result file with rows but without the carreira_final column
    makes the dashboard fail with [KeyError], which the tab does not
    catch; the total has been written on the screen by then. *)
Theorem aba_dashboard_missing_column (pd : pandas) (linhas : csv_file)
  (t : list st_event) :
  linhas <> [] ->
  (forall row, In row linhas -> get row "carreira_final" = None) ->
  aba_dashboard pd (mk_mundo (Some linhas) t)
  = (Raise KeyError,
     mk_mundo (Some linhas) (t ++ [st_write_total (List.length linhas)])).
Proof.
  intros Hne Hmiss. destruct linhas as [|fila r]; [congruence|].
  rewrite aba_dashboard_with_rows. unfold distribuicao.
  rewrite coluna_missing; [reflexivity|discriminate|].
  intros row Hin. apply in_map_iff in Hin. destruct Hin as (row0 & <- & Hin0).
  rewrite get_map_row, (Hmiss row0 Hin0). reflexivity.
Qed.

Lemma aba_dashboard_missing_column_witness :
  aba_dashboard pandas_exato (mk_mundo (Some [[("vencedor", FTexto "advocacia")]]) [])
  = (Raise KeyError,
     mk_mundo (Some [[("vencedor", FTexto "advocacia")]]) [st_write_total 1]).
Proof.
  apply (aba_dashboard_missing_column pandas_exato
           [[("vencedor", FTexto "advocacia")]] []).
  - discriminate.
  - intros row [<-|[]]. reflexivity.
Defined.

(** *** The distribution *)

Lemma py_sum_cons (a : Z) (l : list Z) : py_sum (a :: l) = a + py_sum l.
Proof. reflexivity. Qed.

Lemma sum_inserir_desc (kv : cell * Z) (l : list (cell * Z)) :
  py_sum (map snd (inserir_desc kv l)) = snd kv + py_sum (map snd l).
Proof.
  induction l as [|h t IH]; cbn [inserir_desc]; [reflexivity|].
  destruct (snd kv <? snd h); cbn [map]; rewrite ?py_sum_cons; [|reflexivity].
  rewrite IH. lia.
Qed.

Lemma sum_sorted (l : list (cell * Z)) :
  py_sum (map snd (fold_right inserir_desc [] l)) = py_sum (map snd l).
Proof.
  induction l as [|h t IH]; [reflexivity|].
  cbn [fold_right]. rewrite sum_inserir_desc, IH. reflexivity.
Qed.

Lemma sum_incrementar (vistos : list (cell * Z)) (x : cell) :
  py_sum (map snd (incrementar vistos x)) = py_sum (map snd vistos) + 1.
Proof.
  induction vistos as [|[y n] r IH]; cbn [incrementar]; [reflexivity|].
  destruct (cell_eqb y x); cbn [map snd]; rewrite ?py_sum_cons; [lia|].
  rewrite IH. lia.
Qed.

Lemma sum_tally_text (col : list cell) (vistos : list (cell * Z)) :
  Forall is_text col ->
  py_sum (map snd (fold_left contar_valor col vistos))
  = py_sum (map snd vistos) + Z.of_nat (List.length col).
Proof.
  intros H. revert vistos. induction H as [|c r [s ->] Hr IH]; intros vistos.
  - cbn [fold_left List.length]. lia.
  - cbn [fold_left contar_valor List.length]. rewrite IH, sum_incrementar. lia.
Qed.

Lemma in_inserir_desc (x kv : cell * Z) (l : list (cell * Z)) :
  In x (inserir_desc kv l) <-> x = kv \/ In x l.
Proof.
  induction l as [|h t IH]; cbn [inserir_desc].
  - simpl. intuition.
  - destruct (snd kv <? snd h); simpl; rewrite ?IH; intuition.
Qed.

Lemma in_sorted (x : cell * Z) (l : list (cell * Z)) :
  In x (fold_right inserir_desc [] l) <-> In x l.
Proof.
  induction l as [|h t IH]; [reflexivity|].
  cbn [fold_right]. rewrite in_inserir_desc, IH. simpl. intuition.
Qed.

Lemma in_incrementar_key (vistos : list (cell * Z)) (x c : cell) (n : Z) :
  In (c, n) (incrementar vistos x) -> c = x \/ In c (map fst vistos).
Proof.
  induction vistos as [|[y m] r IH]; cbn [incrementar].
  - intros [[= <- <-]|[]]. now left.
  - destruct (cell_eqb y x); simpl.
    + intros [[= <- <-]|H]; [right; now left|].
      right. right. apply in_map_iff. now exists (c, n).
    + intros [[= <- <-]|H]; [right; now left|].
      destruct (IH H); auto.
Qed.

Lemma in_tally_key (col : list cell) (vistos : list (cell * Z)) (c : cell) (n : Z) :
  In (c, n) (fold_left contar_valor col vistos) ->
  In c col \/ In c (map fst vistos).
Proof.
  revert vistos. induction col as [|x r IH]; intros vistos; cbn [fold_left].
  - intros H. right. apply in_map_iff. now exists (c, n).
  - intros H. destruct (IH _ H) as [Hr|Hv]; [left; now right|].
    destruct x; cbn [contar_valor] in Hv; try (right; exact Hv);
      apply in_map_iff in Hv; destruct Hv as ([c' n'] & <- & Hin);
      (destruct (in_incrementar_key _ _ _ _ Hin) as [->|Hk];
       [left; now left|right; exact Hk]).
Qed.

Lemma coluna_carrega (es : list envio) (df : DataFrame) :
  es <> [] ->
  Forall2 carrega es df ->
  coluna df "carreira_final" = Ok (map (fun e => CStr (e_carreira_final e)) es).
Proof.
  intros Hne Hall.
  assert (Hcel : celulas df "carreira_final"
                 = Ok (map (fun e => CStr (e_carreira_final e)) es)).
  { clear Hne.
    induction Hall as [|e row es' df' [Hcf _] Hall IH]; cbn [celulas map];
      [reflexivity|].
    now rewrite Hcf, IH. }
  destruct Hall; [congruence|exact Hcel].
Qed.

(** X14: after N >= 1 results have been saved to a fresh store the
    dashboard does not raise: it writes the total N, then the
    distribution, whose counts add up to N and whose every entry has a
    display name, then one percentage line per entry, then the loaded
    records. *)
Theorem aba_dashboard_after_saves (pd : pandas) (es : list envio) :
  es <> [] ->
  Forall envio_valido es ->
  exists df dist,
    read_csv pd (resultados_csv (snd (salvar_todos pd es mundo_inicial))) = Ok df
    /\ distribuicao df = Ok dist
    /\ py_sum (map qtd dist) = Z.of_nat (List.length es)
    /\ Forall (fun row => exists nome_c, Carreira row = Some nome_c) dist
    /\ aba_dashboard pd (snd (salvar_todos pd es mundo_inicial))
       = (Ok tt,
          mk_mundo (resultados_csv (snd (salvar_todos pd es mundo_inicial)))
            ([st_write_total (List.length es); st_bar_dist dist]
             ++ linhas_de_percentual dist ++ [st_dataframe df])).
Proof.
  intros Hne Hval.
  destruct (salvar_todos_fresh pd es) as (arquivo & Hrun & Harq).
  destruct (read_csv_gravado pd es arquivo Hne Harq) as (filas & -> & Hall & Hread).
  rewrite Hrun. cbn [snd resultados_csv].
  pose proof (carrega_all pd es filas Hval Hall) as Hcar.
  set (df := map (map_row (ler_campo pd)) filas) in *.
  pose proof (coluna_carrega es df Hne Hcar) as Hcol.
  set (col := map (fun e => CStr (e_carreira_final e)) es) in *.
  assert (Htext : Forall is_text col).
  { unfold col. apply Forall_forall. intros c Hc. apply in_map_iff in Hc.
    destruct Hc as (e & <- & _). now eexists. }
  exists df. eexists. split; [exact Hread|].
  unfold distribuicao at 1. rewrite Hcol. cbn [rbind].
  split; [reflexivity|]. split; [|split].
  - rewrite map_map. cbn [qtd]. unfold value_counts.
    rewrite <- (map_map snd (fun z => z)), map_id.
    rewrite sum_sorted, sum_tally_text by exact Htext.
    unfold col. rewrite length_map. reflexivity.
  - apply Forall_forall. intros row Hrow. apply in_map_iff in Hrow.
    destruct Hrow as ([c n] & <- & Hin). cbn [Carreira fst].
    unfold value_counts in Hin. apply (proj1 (in_sorted _ _)) in Hin.
    destruct (in_tally_key _ _ _ _ Hin) as [Hc|[]].
    unfold col in Hc. apply in_map_iff in Hc. destruct Hc as (e & <- & He).
    rewrite Forall_forall in Hval. destruct (Hval e He) as (Hcf & _).
    cbn [map_CARREIRAS]. apply in_keys_get. exact Hcf.
  - destruct filas as [|fila r]; [inversion Hall; subst; congruence|].
    rewrite aba_dashboard_with_rows. fold df.
    unfold distribuicao. rewrite Hcol. cbn [rbind].
    assert (Hlen : List.length (fila :: r) = List.length es).
    { symmetry. eapply Forall2_length. exact Hall. }
    rewrite Hlen. cbn [app]. reflexivity.
Qed.

Lemma aba_dashboard_after_saves_witness :
  exists df dist,
    read_csv pandas_exato
      (resultados_csv (snd (salvar_todos pandas_exato [envio_anonimo] mundo_inicial)))
    = Ok df
    /\ distribuicao df = Ok dist
    /\ py_sum (map qtd dist) = 1.
Proof.
  destruct (aba_dashboard_after_saves pandas_exato [envio_anonimo])
    as (df & dist & Hread & Hdist & Hsum & _).
  - discriminate.
  - constructor; [|constructor]. split; [simpl; tauto|]. split.
    + simpl. repeat constructor; simpl; intuition discriminate.
    + simpl. repeat constructor; lia.
  - exists df, dist. auto.
Defined.

Lemma cell_eqb_text_refl (s : string) : cell_eqb (CStr s) (CStr s) = true.
Proof. apply String.eqb_refl. Qed.

Lemma conta_incrementar (vistos : list (cell * Z)) (s t : string) :
  conta (incrementar vistos (CStr s)) (CStr t)
  = conta vistos (CStr t) + (if String.eqb s t then 1 else 0).
Proof.
  induction vistos as [|[y n] r IH]; cbn [incrementar conta].
  - cbn [cell_eqb]. destruct (String.eqb s t); reflexivity.
  - destruct (cell_eqb y (CStr s)) eqn:Es; cbn [conta].
    + apply cell_eqb_str in Es. subst y. cbn [cell_eqb].
      destruct (String.eqb s t); lia.
    + rewrite IH. destruct (cell_eqb y (CStr t)) eqn:Et; [|reflexivity].
      apply cell_eqb_str in Et. subst y. cbn [cell_eqb] in Es.
      rewrite String.eqb_sym, Es. lia.
Qed.

Lemma conta_tally (col : list cell) (vistos : list (cell * Z)) (t : string) :
  Forall is_text col ->
  conta (fold_left contar_valor col vistos) (CStr t)
  = conta vistos (CStr t) + ocorrencias t col.
Proof.
  intros H. revert vistos. induction H as [|c r [s ->] Hr IH]; intros vistos.
  - cbn [fold_left ocorrencias]. lia.
  - cbn [fold_left contar_valor ocorrencias cell_eqb].
    rewrite IH, conta_incrementar. lia.
Qed.

Lemma positive_incrementar (vistos : list (cell * Z)) (x : cell) :
  Forall (fun cn => 0 < snd cn) vistos ->
  Forall (fun cn => 0 < snd cn) (incrementar vistos x).
Proof.
  induction 1 as [|[y n] r Hn Hr IH]; cbn [incrementar].
  - repeat constructor.
  - cbn [snd] in Hn. destruct (cell_eqb y x); constructor; auto; cbn [snd]; lia.
Qed.

Lemma positive_tally (col : list cell) (vistos : list (cell * Z)) :
  Forall (fun cn => 0 < snd cn) vistos ->
  Forall (fun cn => 0 < snd cn) (fold_left contar_valor col vistos).
Proof.
  revert vistos. induction col as [|x r IH]; intros vistos H; cbn [fold_left];
    [exact H|].
  apply IH. destruct x; cbn [contar_valor]; auto using positive_incrementar.
Qed.

Lemma keys_incrementar_incl (vistos : list (cell * Z)) (x c : cell) :
  In c (map fst (incrementar vistos x)) -> c = x \/ In c (map fst vistos).
Proof.
  intros H. apply in_map_iff in H. destruct H as ([c' n] & <- & Hin).
  exact (in_incrementar_key _ _ _ _ Hin).
Qed.

Lemma nodup_incrementar (vistos : list (cell * Z)) (s : string) :
  NoDup (map fst vistos) -> NoDup (map fst (incrementar vistos (CStr s))).
Proof.
  induction vistos as [|[y n] r IH]; cbn [incrementar map fst]; intros H.
  - repeat constructor. intros [].
  - inversion H as [|a l Hnotin Hnd]; subst.
    destruct (cell_eqb y (CStr s)) eqn:E; cbn [map fst].
    + constructor; assumption.
    + constructor; [|auto].
      intros Hin. destruct (keys_incrementar_incl _ _ _ Hin) as [->|Hr]; [|tauto].
      rewrite cell_eqb_text_refl in E. discriminate.
Qed.

Lemma nodup_tally (col : list cell) (vistos : list (cell * Z)) :
  Forall is_text col ->
  NoDup (map fst vistos) -> NoDup (map fst (fold_left contar_valor col vistos)).
Proof.
  intros H. revert vistos. induction H as [|c r [s ->] Hr IH]; intros vistos Hnd;
    cbn [fold_left contar_valor]; [exact Hnd|].
  apply IH. now apply nodup_incrementar.
Qed.

Lemma conta_of_entry (vistos : list (cell * Z)) (s : string) (n : Z) :
  NoDup (map fst vistos) -> In (CStr s, n) vistos -> conta vistos (CStr s) = n.
Proof.
  induction vistos as [|[y m] r IH]; cbn [map fst conta]; intros Hnd Hin; [destruct Hin|].
  inversion Hnd as [|a l Hnotin Hnd']; subst.
  destruct Hin as [[= -> ->]|Hin].
  - now rewrite cell_eqb_text_refl.
  - destruct (cell_eqb y (CStr s)) eqn:E; [|auto].
    apply cell_eqb_str in E. subst y. exfalso. apply Hnotin.
    apply in_map_iff. now exists (CStr s, n).
Qed.

Lemma entry_of_conta (vistos : list (cell * Z)) (s : string) :
  conta vistos (CStr s) <> 0 -> In (CStr s, conta vistos (CStr s)) vistos.
Proof.
  induction vistos as [|[y m] r IH]; cbn [conta]; intros H; [congruence|].
  destruct (cell_eqb y (CStr s)) eqn:E.
  - apply cell_eqb_str in E. subst y. now left.
  - right. auto.
Qed.

(** The tally of a text column has one entry per value that occurs, with
    its number of occurrences. *)
Lemma tally_entries (col : list cell) (s : string) (n : Z) :
  Forall is_text col ->
  In (CStr s, n) (fold_left contar_valor col [])
  <-> n = ocorrencias s col /\ 0 < n.
Proof.
  intros Htext.
  pose proof (conta_tally col [] s Htext) as Hc. cbn [conta] in Hc.
  pose proof (nodup_tally col [] Htext (NoDup_nil _)) as Hnd.
  pose proof (positive_tally col [] (Forall_nil _)) as Hpos.
  split.
  - intros Hin. rewrite Forall_forall in Hpos.
    pose proof (Hpos _ Hin) as Hn. cbn [snd] in Hn.
    rewrite (conta_of_entry _ _ _ Hnd Hin) in Hc. lia.
  - intros [-> Hn]. replace (ocorrencias s col) with (conta (fold_left contar_valor col []) (CStr s)) by lia.
    apply entry_of_conta. lia.
Qed.

Lemma text_keys_of_counts (col : list cell) (c : cell) (n : Z) :
  Forall is_text col -> In (c, n) (value_counts col) -> is_text c.
Proof.
  intros Htext Hin. unfold value_counts in Hin.
  apply (proj1 (in_sorted _ _)) in Hin.
  destruct (in_tally_key _ _ _ _ Hin) as [Hc|[]].
  rewrite Forall_forall in Htext. auto.
Qed.

Lemma inserir_desc_perm (kv : cell * Z) (l : list (cell * Z)) :
  Permutation (kv :: l) (inserir_desc kv l).
Proof.
  induction l as [|h t IH]; cbn [inserir_desc]; [reflexivity|].
  destruct (snd kv <? snd h); [|reflexivity].
  rewrite perm_swap. now constructor.
Qed.

Lemma sorted_perm (l : list (cell * Z)) :
  Permutation l (fold_right inserir_desc [] l).
Proof.
  induction l as [|h t IH]; [reflexivity|].
  cbn [fold_right]. rewrite <- inserir_desc_perm. now constructor.
Qed.

Lemma inserir_desc_sorted (kv : cell * Z) (l : list (cell * Z)) :
  StronglySorted (fun a b => snd b <= snd a) l ->
  StronglySorted (fun a b => snd b <= snd a) (inserir_desc kv l).
Proof.
  induction 1 as [|h t Ht IH Hall]; cbn [inserir_desc].
  - repeat constructor.
  - destruct (Z.ltb_spec (snd kv) (snd h)) as [Hlt|Hge].
    + constructor; [exact IH|].
      apply Forall_forall. intros x Hx. apply in_inserir_desc in Hx.
      destruct Hx as [->|Hx]; [lia|].
      rewrite Forall_forall in Hall. auto.
    + constructor; [constructor; assumption|].
      constructor; [exact Hge|].
      rewrite Forall_forall in *. intros x Hx. specialize (Hall x Hx). lia.
Qed.

Lemma value_counts_sorted (col : list cell) :
  StronglySorted (fun a b => snd b <= snd a) (value_counts col).
Proof.
  unfold value_counts. induction (fold_left contar_valor col []) as [|h t IH].
  - constructor.
  - cbn [fold_right]. now apply inserir_desc_sorted.
Qed.

Lemma StronglySorted_map {A B} (R : A -> A -> Prop) (R' : B -> B -> Prop)
  (f : A -> B) (l : list A) :
  (forall a b, R a b -> R' (f a) (f b)) ->
  StronglySorted R l -> StronglySorted R' (map f l).
Proof.
  intros HR. induction 1 as [|h t Ht IH Hall]; cbn [map]; constructor; auto.
  rewrite Forall_forall in *. intros y Hy. apply in_map_iff in Hy.
  destruct Hy as (x & <- & Hx). auto.
Qed.

(** X15: over a column of category codes the distribution has exactly
    one entry for each code that occurs, holding the number of records
    with that code, and no entry for a code that does not occur. *)
Theorem distribuicao_counts_occurrences (df_res : DataFrame) (col : list cell) :
  coluna df_res "carreira_final" = Ok col ->
  Forall is_text col ->
  exists dist,
    distribuicao df_res = Ok dist
    /\ NoDup (keys (contagens dist))
    /\ forall s n, In (s, n) (contagens dist) <-> n = ocorrencias s col /\ 0 < n.
Proof.
  intros Hcol Htext. unfold distribuicao. rewrite Hcol. cbn [rbind].
  eexists. split; [reflexivity|].
  unfold contagens, keys. rewrite !map_map. cbn [carreira qtd fst snd].
  split.
  - rewrite <- (map_map fst chave_de).
    apply NoDup_map_NoDup_ForallPairs.
    + intros c1 c2 H1 H2 Heq.
      apply in_map_iff in H1. destruct H1 as ([c1' n1] & <- & H1).
      apply in_map_iff in H2. destruct H2 as ([c2' n2] & <- & H2).
      destruct (text_keys_of_counts _ _ _ Htext H1) as [s1 E1].
      destruct (text_keys_of_counts _ _ _ Htext H2) as [s2 E2].
      cbn [fst] in *. subst. cbn [chave_de] in Heq. now subst.
    + eapply Permutation_NoDup.
      * apply Permutation_map. unfold value_counts. apply sorted_perm.
      * apply nodup_tally; [exact Htext|constructor].
  - intros s n. rewrite <- (tally_entries col s n Htext). split.
    + intros Hin. apply in_map_iff in Hin. destruct Hin as ([c m] & [= <- <-] & Hin).
      destruct (text_keys_of_counts _ _ _ Htext Hin) as [s' ->].
      cbn [chave_de]. unfold value_counts in Hin.
      exact (proj1 (in_sorted _ _) Hin).
    + intros Hin. apply in_map_iff. exists (CStr s, n). split; [reflexivity|].
      unfold value_counts. exact (proj2 (in_sorted _ _) Hin).
Qed.

Lemma distribuicao_counts_occurrences_witness :
  exists dist,
    distribuicao dez_registros = Ok dist
    /\ forall s n,
         In (s, n) (contagens dist)
         <-> n = ocorrencias s (map (fun r => get_default r "carreira_final" CNaN)
                                    dez_registros)
             /\ 0 < n.
Proof.
  destruct (distribuicao_counts_occurrences dez_registros
              (map (fun r => get_default r "carreira_final" CNaN) dez_registros))
    as (dist & Hd & _ & Hc).
  - reflexivity.
  - repeat constructor; eexists; reflexivity.
  - exists dist. split; [exact Hd|exact Hc].
Defined.

(** X16: the distribution lists the most frequent category first: no
    entry has a greater count than an entry before it. *)
Theorem distribuicao_most_frequent_first (df_res : DataFrame) (col : list cell) :
  coluna df_res "carreira_final" = Ok col ->
  exists dist,
    distribuicao df_res = Ok dist
    /\ StronglySorted (fun a b => qtd b <= qtd a) dist.
Proof.
  intros Hcol. unfold distribuicao. rewrite Hcol. cbn [rbind].
  eexists. split; [reflexivity|].
  eapply StronglySorted_map; [|apply value_counts_sorted].
  intros a b H. exact H.
Qed.

Lemma distribuicao_most_frequent_first_witness :
  exists dist,
    distribuicao dez_registros = Ok dist
    /\ StronglySorted (fun a b => qtd b <= qtd a) dist.
Proof.
  apply (distribuicao_most_frequent_first dez_registros
           (map (fun r => get_default r "carreira_final" CNaN) dez_registros)).
  reflexivity.
Defined.

(** ** Enrichment beyond the claims *)

Lemma get_gemini_descricao_online (amb : ambiente) (carreira_codigo : string) :
  servico_configurado amb ->
  get_gemini_descricao amb carreira_codigo
  = try_except
      (primeira <-
         match genai_Client amb with
         | Ok _ =>
             try_except
               (r <- generate_content amb (prompt_de carreira_codigo) ;;
                devolver_se_texto (getattr_text r))
               (Ok None)
         | Raise _ => Ok None
         end ;;
       match primeira with
       | Some texto => Ok texto
       | None =>
           segunda <-
             try_except
               (res <- generate_text amb (prompt_de carreira_codigo) ;;
                texto <- (if truthy (getattr_text res)
                          then Ok (getattr_text res)
                          else (s <- str_de res ;; Ok (PyStr s))) ;;
                devolver_se_texto texto)
               (Ok None) ;;
           match segunda with
           | Some texto => Ok texto
           | None => Ok (get_default DESCRICOES_BASE carreira_codigo "")
           end
       end)%result
      (Ok (get_default DESCRICOES_BASE carreira_codigo "")).
Proof.
  intros [Hlib Hkey]. unfold get_gemini_descricao, prompt_de.
  rewrite Hlib. cbn [negb].
  destruct (obter_api_key amb) as [chave|]; [|discriminate Hkey].
  cbn [truthy_key] in Hkey. apply negb_true_iff in Hkey. rewrite Hkey.
  destruct (genai_configure amb chave) as [[]|e]; cbn [try_except rbind];
    destruct (genai_Client amb) as [[]|e']; reflexivity.
Qed.

Lemma devolver_texto (s : string) :
  s <> "" -> devolver_se_texto (PyStr s) = Ok (Some (strip s)).
Proof.
  intros H. unfold devolver_se_texto. cbn [truthy].
  destruct (String.eqb_spec s ""); [contradiction|reflexivity].
Qed.

Lemma lstrip_so_espacos (s : string) : so_espacos s = true -> lstrip s = "".
Proof.
  induction s as [|c r IH]; [reflexivity|]. cbn [so_espacos lstrip].
  intros H. apply andb_true_iff in H. destruct H as [Hc Hr].
  rewrite Hc. auto.
Qed.

Lemma rstrip_cons (c : ascii) (r : string) :
  rstrip (String c r)
  = match rstrip r with
    | EmptyString => if is_space c then EmptyString else String c EmptyString
    | r' => String c r'
    end.
Proof. reflexivity. Qed.

Lemma rstrip_idem (s : string) : rstrip (rstrip s) = rstrip s.
Proof.
  induction s as [|c r IH]; [reflexivity|]. rewrite rstrip_cons.
  destruct (rstrip r) as [|c' r'] eqn:E.
  - destruct (is_space c) eqn:Ec; [reflexivity|]. cbn [rstrip]. now rewrite Ec.
  - rewrite rstrip_cons, IH. reflexivity.
Qed.

Lemma lstrip_head (s : string) :
  lstrip s = "" \/ exists c r, lstrip s = String c r /\ is_space c = false.
Proof.
  induction s as [|c r IH]; [now left|]. cbn [lstrip].
  destruct (is_space c) eqn:E; [exact IH|]. right. eauto.
Qed.

Lemma lstrip_rstrip_fixed (s : string) : lstrip (strip s) = strip s.
Proof.
  unfold strip. destruct (lstrip_head s) as [->|(c & r & -> & Hc)]; [reflexivity|].
  rewrite rstrip_cons. destruct (rstrip r); [rewrite Hc|]; cbn [lstrip]; now rewrite Hc.
Qed.

(** X17: with the library present and a key configured, when the Client
    call answers with a non-empty ASCII text, that text is returned with
    the white space at both ends removed; the prompt it answers is the one
    built from the display name and the static description of the code,
    and neither a failing [genai.configure] nor the alternative call has
    any influence. *)
Theorem get_gemini_descricao_returns_service_text
  (amb : ambiente) (carreira_codigo : string) (r : resposta) (s : string) :
  servico_configurado amb ->
  genai_Client amb = Ok tt ->
  generate_content amb (prompt_de carreira_codigo) = Ok r ->
  getattr_text r = PyStr s ->
  s <> "" ->
  so_ascii s = true ->
  get_gemini_descricao amb carreira_codigo = Ok (strip s)
  /\ lstrip (strip s) = strip s
  /\ rstrip (strip s) = strip s.
Proof.
  intros Hcfg Hcl Hgen Htxt Hs _. split; [|split].
  - rewrite (get_gemini_descricao_online _ _ Hcfg), Hcl, Hgen. cbn [rbind].
    rewrite Htxt, (devolver_texto _ Hs). reflexivity.
  - apply lstrip_rstrip_fixed.
  - unfold strip. apply rstrip_idem.
Qed.

Lemma get_gemini_descricao_returns_service_text_witness :
  get_gemini_descricao (amb_responde "  A magistratura decide.  ") "magistratura"
  = Ok "A magistratura decide.".
Proof.
  refine (proj1 (get_gemini_descricao_returns_service_text
                   (amb_responde "  A magistratura decide.  ") "magistratura"
                   (mk_resposta (Some (PyStr "  A magistratura decide.  ")) (Ok "<Response>"))
                   "  A magistratura decide.  " _ eq_refl eq_refl eq_refl _ eq_refl)).
  - split; reflexivity.
  - discriminate.
Defined.

(** X18: a text made of white space only counts as an answer: the
    function then returns the empty string, not the static
    description. *)
Theorem get_gemini_descricao_blank_text
  (amb : ambiente) (carreira_codigo : string) (r : resposta) (s : string) :
  servico_configurado amb ->
  genai_Client amb = Ok tt ->
  generate_content amb (prompt_de carreira_codigo) = Ok r ->
  getattr_text r = PyStr s ->
  s <> "" ->
  so_espacos s = true ->
  get_gemini_descricao amb carreira_codigo = Ok "".
Proof.
  intros Hcfg Hcl Hgen Htxt Hs Hsp.
  rewrite (get_gemini_descricao_online _ _ Hcfg), Hcl, Hgen. cbn [rbind].
  rewrite Htxt, (devolver_texto _ Hs). cbn [try_except rbind].
  unfold strip. now rewrite (lstrip_so_espacos _ Hsp).
Qed.

Lemma get_gemini_descricao_blank_text_witness :
  get_gemini_descricao (amb_responde "   ") "advocacia" = Ok "".
Proof.
  apply (get_gemini_descricao_blank_text (amb_responde "   ") "advocacia"
           (mk_resposta (Some (PyStr "   ")) (Ok "<Response>")) "   ").
  - split; reflexivity.
  - reflexivity.
  - reflexivity.
  - reflexivity.
  - discriminate.
  - reflexivity.
Defined.

(** X19: when the Client is missing or its call gives no usable text,
    the alternative call is used: a non-empty ASCII text it answers with
    is returned, stripped. *)
Theorem get_gemini_descricao_alternative_text
  (amb : ambiente) (carreira_codigo : string) (res : resposta) (s : string) :
  servico_configurado amb ->
  ((exists e, genai_Client amb = Raise e)
   \/ (exists e, generate_content amb (prompt_de carreira_codigo) = Raise e)
   \/ (exists r, generate_content amb (prompt_de carreira_codigo) = Ok r
                 /\ malformada r)) ->
  generate_text amb (prompt_de carreira_codigo) = Ok res ->
  getattr_text res = PyStr s ->
  s <> "" ->
  so_ascii s = true ->
  get_gemini_descricao amb carreira_codigo = Ok (strip s).
Proof.
  intros Hcfg Hprim Halt Htxt Hs _.
  rewrite (get_gemini_descricao_online _ _ Hcfg).
  assert (Hp : match genai_Client amb with
               | Ok _ =>
                   try_except
                     (r <- generate_content amb (prompt_de carreira_codigo) ;;
                      devolver_se_texto (getattr_text r))%result
                     (Ok None)
               | Raise _ => Ok None
               end = Ok None).
  { destruct Hprim as [[e ->]|[[e He]|(r & Hr & Hm)]]; [reflexivity| |].
    - rewrite He. destruct (genai_Client amb); reflexivity.
    - rewrite Hr. cbn [rbind]. rewrite (malformada_falls_through _ Hm).
      destruct (genai_Client amb); reflexivity. }
  rewrite Hp. cbn [rbind]. rewrite Halt. cbn [rbind]. rewrite Htxt.
  cbn [truthy]. destruct (String.eqb_spec s ""); [contradiction|].
  cbn [negb rbind]. rewrite (devolver_texto _ Hs). reflexivity.
Qed.

Lemma get_gemini_descricao_alternative_text_witness :
  get_gemini_descricao (amb_antigo "Consultoria previne conflitos.
") "consultoria"
  = Ok "Consultoria previne conflitos.".
Proof.
  refine (get_gemini_descricao_alternative_text
            (amb_antigo "Consultoria previne conflitos.
") "consultoria"
            (mk_resposta (Some (PyStr "Consultoria previne conflitos.
")) (Ok "<Result>"))
            "Consultoria previne conflitos.
" _ _ eq_refl eq_refl _ eq_refl).
  - split; reflexivity.
  - left. exists AttributeError. reflexivity.
  - discriminate.
Defined.

(** ** The form of the quiz tab *)

Lemma mapa_get_origin (kvs : list (string * opcao)) (m0 : dict (option string))
  (l : string) (v : option string) :
  get (fold_left (fun m ld => set m (rotulo (fst ld) (snd ld)) (o_carreira (snd ld)))
         kvs m0) l = Some v ->
  (exists letra dados,
     In (letra, dados) kvs /\ rotulo letra dados = l /\ o_carreira dados = v)
  \/ get m0 l = Some v.
Proof.
  revert m0. induction kvs as [|[letra dados] r IH]; intros m0; cbn [fold_left].
  - now right.
  - intros H. destruct (IH _ H) as [(le & da & Hin & Hl & Hv)|Hm].
    + left. exists le, da. split; [now right|auto].
    + cbn [fst snd] in Hm.
      destruct (String.eqb_spec (rotulo letra dados) l) as [E|Hne].
      * rewrite E, get_set_same in Hm. injection Hm as <-.
        left. exists letra, dados. split; [now left|auto].
      * rewrite (get_set_other _ _ _ _ Hne) in Hm. now right.
Qed.

Lemma mapa_keys_grow (kvs : list (string * opcao)) (m0 : dict (option string))
  (l : string) :
  In l (map (fun ld => rotulo (fst ld) (snd ld)) kvs) \/ In l (keys m0) ->
  In l (keys (fold_left
                (fun m ld => set m (rotulo (fst ld) (snd ld)) (o_carreira (snd ld)))
                kvs m0)).
Proof.
  revert m0. induction kvs as [|[letra dados] r IH]; intros m0; cbn [fold_left map].
  - intros [[]|H]. exact H.
  - intros [[<-|H]|H]; apply IH.
    + right. cbn [fst snd]. eapply get_some_in_keys. apply get_set_same.
    + now left.
    + right. now apply in_keys_set.
Qed.

Lemma in_set_resposta (r : respostas) (id q : Z) (x v : option string) :
  In (q, v) (set_resposta r id x) -> (q, v) = (id, x) \/ In (q, v) r.
Proof.
  induction r as [|[id' v'] t IH]; cbn [set_resposta].
  - intros [H|[]]. now left.
  - destruct (Z.eqb id' id); simpl; intros [H|H]; auto.
    destruct (IH H); auto.
Qed.

Lemma set_resposta_same (r : respostas) (id : Z) (x : option string) :
  In (id, x) (set_resposta r id x).
Proof.
  induction r as [|[id' v'] t IH]; cbn [set_resposta]; [now left|].
  destruct (Z.eqb id' id); [now left|now right].
Qed.

Lemma set_resposta_other (r : respostas) (id q : Z) (x v : option string) :
  q <> id -> In (q, v) r -> In (q, v) (set_resposta r id x).
Proof.
  intros Hne. induction r as [|[id' v'] t IH]; cbn [set_resposta]; [intros []|].
  destruct (Z.eqb_spec id' id) as [->|]; simpl; intros [H|H]; auto.
  injection H as -> _. contradiction.
Qed.

Lemma in_montar (radio : pergunta -> list string -> option string)
  (perguntas : list pergunta) (r0 : respostas) (q : Z) (v : option string) :
  In (q, v) (fold_left (fun r p => set_resposta r (p_id p) (carreira_escolhida radio p))
               perguntas r0) ->
  In (q, v) r0
  \/ exists p, In p perguntas /\ p_id p = q /\ carreira_escolhida radio p = v.
Proof.
  revert r0. induction perguntas as [|p ps IH]; intros r0; cbn [fold_left].
  - now left.
  - intros H. destruct (IH _ H) as [Hr|(p' & Hin & Hq & Hv)].
    + destruct (in_set_resposta _ _ _ _ _ Hr) as [[= -> ->]|Hr0]; [|now left].
      right. exists p. split; [now left|auto].
    + right. exists p'. split; [now right|auto].
Qed.

Lemma carreira_escolhida_origin
  (radio : pergunta -> list string -> option string) (p : pergunta) (c : string) :
  carreira_escolhida radio p = Some c ->
  exists l letra dados,
    radio p (opcoes_labels p) = Some l
    /\ In (letra, dados) (items (p_opcoes p))
    /\ rotulo letra dados = l
    /\ o_carreira dados = Some c.
Proof.
  unfold carreira_escolhida. destruct (radio p (opcoes_labels p)) as [l|]; [|discriminate].
  destruct (get (mapa_label_carreira p) l) as [v|] eqn:E; [|discriminate].
  intros ->. unfold mapa_label_carreira in E.
  destruct (mapa_get_origin _ _ _ _ E) as [(letra & dados & Hin & Hl & Hv)|H0];
    [|discriminate H0].
  exists l, letra, dados. auto.
Qed.

(** X20: when every option of the bank is tagged with a category and
    the radio of each question returns one of the labels it offers, as
    Streamlit's does, no answer of the collected answer set is empty:
    such a form is never rejected as incomplete. *)
Theorem montar_respostas_all_answered
  (radio : pergunta -> list string -> option string) (perguntas : list pergunta) :
  (forall p, In p perguntas -> radio_escolhe radio p) ->
  (forall p letra dados,
     In p perguntas -> In (letra, dados) (items (p_opcoes p)) ->
     o_carreira dados <> None) ->
  (forall q v, In (q, v) (montar_respostas radio perguntas) -> v <> None)
  /\ existsb is_none (map snd (montar_respostas radio perguntas)) = false.
Proof.
  intros Hradio Htag.
  assert (H : forall q v, In (q, v) (montar_respostas radio perguntas) -> v <> None).
  { intros q v Hin. unfold montar_respostas in Hin.
    destruct (in_montar _ _ _ _ _ Hin) as [[]|(p & Hp & _ & <-)].
    destruct (Hradio p Hp) as (l & Hl & Hlin).
    unfold carreira_escolhida. rewrite Hl.
    assert (Hk : In l (keys (mapa_label_carreira p))).
    { unfold mapa_label_carreira. apply mapa_keys_grow. now left. }
    destruct (in_keys_get _ _ Hk) as (v & Hv). rewrite Hv.
    unfold mapa_label_carreira in Hv.
    destruct (mapa_get_origin _ _ _ _ Hv) as [(letra & dados & Hin' & _ & <-)|H0];
      [|discriminate H0].
    eapply Htag; eassumption. }
  split; [exact H|]. now apply existsb_is_none_false.
Qed.

Lemma montar_respostas_all_answered_witness :
  existsb is_none (map snd (montar_respostas radio_padrao banco_exemplo)) = false.
Proof.
  refine (proj2 (montar_respostas_all_answered radio_padrao banco_exemplo _ _)).
  - intros p [<-|[<-|[]]]; eexists; (split; [reflexivity|simpl; auto]).
  - intros p letra dados [<-|[<-|[]]] [[= <- <-]|[[= <- <-]|[]]]; discriminate.
Defined.

(** X21: every answer collected by the form is the category of an
    option of the question it is recorded for, namely of an option
    whose label is the one the radio of that question returned. *)
Theorem montar_respostas_sound
  (radio : pergunta -> list string -> option string) (perguntas : list pergunta)
  (q : Z) (c : string) :
  In (q, Some c) (montar_respostas radio perguntas) ->
  exists p l letra dados,
    In p perguntas /\ p_id p = q
    /\ radio p (opcoes_labels p) = Some l
    /\ In (letra, dados) (items (p_opcoes p))
    /\ rotulo letra dados = l
    /\ o_carreira dados = Some c.
Proof.
  intros Hin. unfold montar_respostas in Hin.
  destruct (in_montar _ _ _ _ _ Hin) as [[]|(p & Hp & Hq & Hv)].
  destruct (carreira_escolhida_origin _ _ _ Hv) as (l & letra & dados & H).
  exists p, l, letra, dados. tauto.
Qed.

Lemma montar_respostas_sound_witness :
  exists p l letra dados,
    In p banco_exemplo /\ p_id p = 2
    /\ radio_padrao p (opcoes_labels p) = Some l
    /\ In (letra, dados) (items (p_opcoes p))
    /\ rotulo letra dados = l
    /\ o_carreira dados = Some "consultoria".
Proof.
  apply (montar_respostas_sound radio_padrao banco_exemplo 2 "consultoria").
  simpl. right. left. reflexivity.
Defined.

Lemma ids_distintos_NoDup (ids : list Z) : ids_distintos ids = true <-> NoDup ids.
Proof.
  induction ids as [|i r IH]; cbn [ids_distintos].
  - split; [constructor|reflexivity].
  - rewrite andb_true_iff, negb_true_iff, IH. split.
    + intros [Hn Hr]. constructor; [|exact Hr].
      intros Hin. assert (E : existsb (Z.eqb i) r = true).
      { apply existsb_exists. exists i. split; [exact Hin|apply Z.eqb_refl]. }
      congruence.
    + intros H. inversion H as [|x l Hn Hr]; subst. split; [|exact Hr].
      destruct (existsb (Z.eqb i) r) eqn:E; [|reflexivity].
      apply existsb_exists in E. destruct E as (j & Hj & Hij).
      apply Z.eqb_eq in Hij. subst j. contradiction.
Qed.

Lemma set_resposta_fresh (r : respostas) (id : Z) (x : option string) :
  ~ In id (map fst r) -> set_resposta r id x = r ++ [(id, x)].
Proof.
  induction r as [|[id' v'] t IH]; cbn [set_resposta map fst app In];
    [reflexivity|].
  intros H. destruct (Z.eqb_spec id' id) as [E|_]; [tauto|].
  rewrite IH; tauto.
Qed.

Lemma montar_respostas_distinct
  (radio : pergunta -> list string -> option string) (perguntas : list pergunta) :
  NoDup (map p_id perguntas) ->
  montar_respostas radio perguntas
  = map (fun p => (p_id p, carreira_escolhida radio p)) perguntas.
Proof.
  unfold montar_respostas.
  induction perguntas as [|x ps IH] using rev_ind; [reflexivity|].
  rewrite !map_app, fold_left_app. cbn [fold_left map]. intros Hnd.
  pose proof (NoDup_remove_1 _ _ _ Hnd) as Hps. rewrite app_nil_r in Hps.
  pose proof (NoDup_remove_2 _ _ _ Hnd) as Hx. rewrite app_nil_r in Hx.
  rewrite (IH Hps). apply set_resposta_fresh.
  rewrite map_map. exact Hx.
Qed.

(** X22: when the ids of the bank are distinct, the form gives an answer
    set that holds exactly one answer for each question, in the order of
    the bank, the category of the option chosen for it; when two
    questions share an id, laying out the form raises
    [DuplicateWidgetID] and there is no answer set. *)
Theorem formulario_one_answer_per_question
  (radio : pergunta -> list string -> option string) (perguntas : list pergunta) :
  (NoDup (map p_id perguntas) ->
   formulario radio perguntas
   = Ok (map (fun p => (p_id p, carreira_escolhida radio p)) perguntas))
  /\ (~ NoDup (map p_id perguntas) ->
      formulario radio perguntas = Raise DuplicateWidgetID).
Proof.
  unfold formulario. split; intros H.
  - rewrite (proj2 (ids_distintos_NoDup _) H).
    now rewrite montar_respostas_distinct.
  - destruct (ids_distintos (map p_id perguntas)) eqn:E; [|reflexivity].
    apply ids_distintos_NoDup in E. contradiction.
Qed.

Lemma formulario_one_answer_per_question_witness :
  formulario radio_padrao banco_exemplo
  = Ok [(1, Some "advocacia"); (2, Some "consultoria")]
  /\ formulario radio_padrao (banco_exemplo ++ banco_exemplo)
     = Raise DuplicateWidgetID.
Proof.
  split.
  - apply (proj1 (formulario_one_answer_per_question radio_padrao banco_exemplo)).
    simpl. repeat constructor; simpl; intuition discriminate.
  - apply (proj2 (formulario_one_answer_per_question radio_padrao
                    (banco_exemplo ++ banco_exemplo))).
    intros H. simpl in H. inversion H as [|x l Hn _]. apply Hn. simpl. tauto.
Defined.

Lemma montar_present (radio : pergunta -> list string -> option string)
  (perguntas : list pergunta) (p : pergunta) :
  NoDup (map p_id perguntas) ->
  In p perguntas ->
  In (p_id p, carreira_escolhida radio p) (montar_respostas radio perguntas).
Proof.
  unfold montar_respostas.
  induction perguntas as [|x ps IH] using rev_ind; [intros _ []|].
  rewrite map_app, fold_left_app. cbn [fold_left map]. intros Hnd Hin.
  apply in_app_or in Hin. destruct Hin as [Hin|[<-|[]]].
  - apply set_resposta_other.
    + intros E. apply NoDup_remove_2 in Hnd. apply Hnd.
      rewrite app_nil_r, <- E. now apply in_map.
    + apply IH; [|exact Hin]. now apply NoDup_remove_1 in Hnd; rewrite app_nil_r in Hnd.
  - apply set_resposta_same.
Qed.

(** X23: a question without options cannot be answered: whatever the
    radio returns, its answer is empty, and with distinct question ids
    every submission of the form is rejected with the validation
    message, nothing being scored or saved. *)
Theorem aba_quiz_question_without_options (pd : pandas)
  (amb : ambiente) (agora_iso agora_fmt nome : string)
  (radio : pergunta -> list string -> option string)
  (perguntas : list pergunta) (p : pergunta) (w : mundo) :
  NoDup (map p_id perguntas) ->
  In p perguntas ->
  p_opcoes p = [] ->
  aba_quiz pd amb agora_iso agora_fmt true nome (montar_respostas radio perguntas) w
  = (Ok tt, mk_mundo (resultados_csv w) (tela w ++ [st_error msg_validacao])).
Proof.
  intros Hnd Hin Hvazio.
  pose proof (montar_present radio _ _ Hnd Hin) as Hp.
  assert (Hn : carreira_escolhida radio p = None).
  { unfold carreira_escolhida, mapa_label_carreira. rewrite Hvazio.
    destruct (radio p (opcoes_labels p)); reflexivity. }
  rewrite Hn in Hp.
  unfold aba_quiz. rewrite (existsb_is_none _ _ Hp). reflexivity.
Qed.

Lemma aba_quiz_question_without_options_witness :
  aba_quiz pandas_exato amb_fora_do_ar "2025-01-01T10:00:00" "01/01/2025 10:00" true "Ana"
    (montar_respostas radio_padrao (banco_exemplo ++ [mk_pergunta 3 "Sem opcoes" []]))
    mundo_inicial
  = (Ok tt, mk_mundo None [st_error msg_validacao]).
Proof.
  apply (aba_quiz_question_without_options pandas_exato amb_fora_do_ar _ _ _ radio_padrao
           (banco_exemplo ++ [mk_pergunta 3 "Sem opcoes" []])
           (mk_pergunta 3 "Sem opcoes" []) mundo_inicial).
  - simpl. repeat constructor; simpl; intuition discriminate.
  - simpl. right. right. left. reflexivity.
  - reflexivity.
Defined.
